(** * ptp4u send worker: a shallow embedding of [ptp4u/server/worker.go]

    The worker of the PTP unicast server pulls subscription clients from its
    queue and sends Sync/Follow-Up, Announce and Delay-Response datagrams.
    This file embeds [sendWorker.Start] as a state-passing program over an
    explicit store (the clients the queue points to), the channel contents,
    the platform (sockets, timestamps) and a trace of every call the worker
    makes to the platform, the stats sink and the logger, each with its
    result, and proves the properties of the transmission core on it. *)

From Stdlib Require Import ZArith List String Lia.
From stdpp Require Import base option list gmap strings.

Local Open Scope Z_scope.
Local Open Scope string_scope.
Local Open Scope list_scope.

(** ** Data model *)

(** [time.Time] as nanoseconds on the time line and [time.Duration] as a
    signed number of nanoseconds; [Time.Add] is addition. *)
Definition Time := Z.
Definition Duration := Z.
Definition Time_Add (t : Time) (d : Duration) : Time := t + d.

(** Go's [error] values are only logged by the worker; they are kept as
    their message. *)
Definition error := string.

Inductive result (A : Type) : Type :=
| Ok (a : A)
| Err (e : error).
Arguments Ok {A} a.
Arguments Err {A} e.

(** [net.IP] and [unix.Sockaddr] (address and port of a peer). *)
Definition IP := list Z.
Record Sockaddr := { saAddr : IP; saPort : Z }.

(** A [*net.UDPConn] is an opaque handle; a descriptor is an [int]. *)
Definition UDPConn := Z.
Definition Fd := Z.

(** [ptp.MessageType]: the four message types the worker names, and every
    other value of the type (the [default] branch of the dispatch). *)
Inductive MessageType :=
| MessageSync
| MessageFollowUp
| MessageAnnounce
| MessageDelayResp
| MessageOther (code : Z).

#[global] Instance MessageType_eq_dec : EqDecision MessageType.
Proof. solve_decision. Defined.

(** The timestamp mode of the configuration: the two constants
    [ptp.HWTIMESTAMP] and [ptp.SWTIMESTAMP], and any other value (the
    [default] branch of the setup switch). *)
Inductive TimestampType :=
| HWTIMESTAMP
| SWTIMESTAMP
| TimestampOther (name : string).

#[global] Instance TimestampType_eq_dec : EqDecision TimestampType.
Proof. solve_decision. Defined.

Record Config := {
  cfgIP : IP;
  Interface : string;
  cfgTimestampType : TimestampType;
  UTCOffset : Duration
}.

(** The precomputed Delay-Response of a client, kept opaque. *)
Record DelayResp := { delayRespBody : list Byte.byte }.

(** Modelled from the spec: the message values handed to serialization
    (section 6, client/job contract: [buildSync(seq)],
    [buildFollowUp(seq, originTimestamp)], [buildAnnounce(seq)] and a
    precomputed [delayResponsePayload]); the packet types of the protocol
    package are not part of the sources at hand. *)
Inductive Packet :=
| SyncPacket (SequenceID : Z)
| FollowUpPacket (SequenceID : Z) (PreciseOriginTimestamp : Time)
| AnnouncePacket (SequenceID : Z)
| DelayRespPacket (body : DelayResp).

(** [SubscriptionClient], with the fields the worker reads and writes. *)
Record SubscriptionClient := {
  eclisa : Sockaddr;
  gclisa : Sockaddr;
  subscriptionType : MessageType;
  sequenceID : Z;
  delayRespP : DelayResp
}.

(** Modelled from the spec: [syncPacket], one of the three builders of
    the client ([syncPacket], [followupPacket], [announcePacket]), which are
    declared next to [SubscriptionClient], outside the sources at hand.
    Each builds the message for the client's current sequence number. *)
Definition syncPacket (c : SubscriptionClient) : Packet :=
  SyncPacket (sequenceID c).
(** Modelled from the spec: [followupPacket], the Follow-Up for the
    client's current sequence number, carrying the given timestamp as its
    precise origin time. *)
Definition followupPacket (c : SubscriptionClient) (ts : Time) : Packet :=
  FollowUpPacket (sequenceID c) ts.
(** Modelled from the spec: [announcePacket], the Announce for the
    client's current sequence number. *)
Definition announcePacket (c : SubscriptionClient) : Packet :=
  AnnouncePacket (sequenceID c).

(** What a message carries. *)
Definition packetSequenceID (p : Packet) : option Z :=
  match p with
  | SyncPacket n | FollowUpPacket n _ | AnnouncePacket n => Some n
  | DelayRespPacket _ => None
  end.
Definition packetOriginTimestamp (p : Packet) : option Time :=
  match p with
  | FollowUpPacket _ ts => Some ts
  | _ => None
  end.

(** The [sendWorker] struct. Its [queue] channel is mutable shared state
    and lives in the machine state below; its [stats] sink is observed
    through the trace. *)
Record sendWorker := {
  id : Z;
  load : Z;
  config : Config
}.

(** ** Observable calls *)

Inductive Level := FatalLevel | ErrorLevel | WarnLevel | DebugLevel | TraceLevel.

#[global] Instance Level_eq_dec : EqDecision Level.
Proof. solve_decision. Defined.

Inductive Event :=
| EvListenUDP (ip : IP) (r : result UDPConn)
| EvClose (conn : UDPConn)
| EvConnFd (conn : UDPConn) (r : result Fd)
| EvEnableHWTimestampsSocket (fd : Fd) (iface : string) (err : option error)
| EvEnableSWTimestampsSocket (fd : Fd) (err : option error)
| EvReadTXtimestampBuf (fd : Fd) (ts : Time) (attempts : Z) (err : option error)
| EvSendto (fd : Fd) (buf : list Byte.byte) (to : Sockaddr) (err : option error)
| EvIncTX (t : MessageType)
| EvSetMaxTXTSAttempts (worker : Z) (attempts : Z)
| EvSetMaxWorkerLoad (worker : Z) (load : Z)
| EvSetMaxWorkerQueue (worker : Z) (depth : Z)
| EvLog (lvl : Level) (format : string).

(** Pointers to clients are locations of the store; a location the store
    does not hold plays the nil pointer. *)
Definition loc := nat.

(** ** The platform *)

(** The calls into the operating system and the protocol package, as
    functions of an abstract world [W]. [maxTXTS] and [recvTXTimestamp] are
    the attempt bound and one read of the socket error queue, from which
    [ReadTXtimestampBuf] is built. *)
Record Platform (W : Type) := {
  ListenUDP : IP -> W -> result UDPConn * W;
  Close : UDPConn -> W -> W;
  ConnFd : UDPConn -> W -> result Fd * W;
  EnableHWTimestampsSocket : Fd -> string -> W -> option error * W;
  EnableSWTimestampsSocket : Fd -> W -> option error * W;
  Sendto : Fd -> list Byte.byte -> Sockaddr -> W -> option error * W;
  BytesTo : Packet -> result (list Byte.byte);
  maxTXTS : nat;
  recvTXTimestamp : Fd -> W -> option Time * W
}.
Arguments ListenUDP {W}.
Arguments Close {W}.
Arguments ConnFd {W}.
Arguments EnableHWTimestampsSocket {W}.
Arguments EnableSWTimestampsSocket {W}.
Arguments Sendto {W}.
Arguments BytesTo {W}.
Arguments maxTXTS {W}.
Arguments recvTXTimestamp {W}.

(** ** Machine state and the worker monad *)

(** The world of the platform, the store of clients, the jobs still in
    the channel of the worker, and the trace. The runs modelled are those
    in which the producer has sent its jobs and closed the channel, so
    [len(s.queue)] is the number of jobs left. *)

Record State (W : Type) := mkState {
  world : W;
  heap : gmap loc SubscriptionClient;
  queue : list loc;
  trace : list Event
}.
Arguments mkState {W}.
Arguments world {W}.
Arguments heap {W}.
Arguments queue {W}.
Arguments trace {W}.

(** How a computation leaves the straight line: [continue] and [return]
    of the job loop, the process exit of [log.Fatalf], a run-time panic. *)
Inductive Exit := Continue | Return | OsExit | Panic.

Inductive Res (A : Type) : Type :=
| Val (a : A)
| Brk (e : Exit).
Arguments Val {A} a.
Arguments Brk {A} e.

(** How a call of [Start] ends, seen from the process: the function
    returns (its deferred calls have run), the process exits, or a panic
    unwinds. *)
Inductive Outcome := Returned | Exited | Panicked.
Definition outcome (r : Res unit) : Outcome :=
  match r with
  | Val _ | Brk Return | Brk Continue => Returned
  | Brk OsExit => Exited
  | Brk Panic => Panicked
  end.

Definition M (W A : Type) : Type := State W -> Res A * State W.

Definition ret {W A} (a : A) : M W A := fun st => (Val a, st).

Definition bind {W A B} (m : M W A) (k : A -> M W B) : M W B :=
  fun st =>
    match m st with
    | (Val a, st') => k a st'
    | (Brk e, st') => (Brk e, st')
    end.

Declare Scope worker_scope.
Delimit Scope worker_scope with worker.
Notation "x <- m ;; k" := (bind m (fun x => k))
  (at level 100, m at next level, right associativity) : worker_scope.
Notation "m ;; k" := (bind m (fun _ => k))
  (at level 100, right associativity) : worker_scope.
Local Open Scope worker_scope.

Section Worker.
Context {W : Type}.
Variable P : Platform W.

(** Width in bits of the client's sequence counter; the declaration of
    the field is outside the sources at hand. *)
Variable seqBits : Z.

(** [c.sequenceID++] on an unsigned counter of [seqBits] bits. *)
Definition seqIncr (n : Z) : Z := (n + 1) mod 2 ^ seqBits.

Definition brk {A} (e : Exit) : M W A := fun st => (Brk e, st).

Definition emit (e : Event) : M W unit :=
  fun st => (Val tt, mkState (world st) (heap st) (queue st) (trace st ++ [e])).

Definition call {A} (f : W -> A * W) : M W A :=
  fun st =>
    let '(a, w) := f (world st) in
    (Val a, mkState w (heap st) (queue st) (trace st)).

(** The logger. [Fatalf] logs and exits the process. *)
Definition logf (lvl : Level) (format : string) : M W unit :=
  emit (EvLog lvl format).
Definition Fatalf {A} (format : string) : M W A :=
  logf FatalLevel format ;; brk OsExit.

(** [if err != nil { handler }] for a call returning a value and an
    error, and for one returning an error only. The handlers of the
    worker all leave the straight line. *)
Definition unwrap {A} (r : result A) (handler : M W A) : M W A :=
  match r with
  | Ok a => ret a
  | Err _ => handler
  end.
Definition check (err : option error) (handler : M W unit) : M W unit :=
  match err with
  | None => ret tt
  | Some _ => handler
  end.

(** The stats sink. *)
Definition IncTX (t : MessageType) : M W unit := emit (EvIncTX t).
Definition SetMaxTXTSAttempts (w a : Z) : M W unit := emit (EvSetMaxTXTSAttempts w a).
Definition SetMaxWorkerLoad (w l : Z) : M W unit := emit (EvSetMaxWorkerLoad w l).
Definition SetMaxWorkerQueue (w d : Z) : M W unit := emit (EvSetMaxWorkerQueue w d).

(** Sockets. *)
Definition listenUDP (ip : IP) : M W (result UDPConn) :=
  r <- call (ListenUDP P ip) ;;
  emit (EvListenUDP ip r) ;;
  ret r.
Definition close (conn : UDPConn) : M W unit :=
  call (fun w => (tt, Close P conn w)) ;;
  emit (EvClose conn).
Definition connFd (conn : UDPConn) : M W (result Fd) :=
  r <- call (ConnFd P conn) ;;
  emit (EvConnFd conn r) ;;
  ret r.
Definition enableHWTimestampsSocket (fd : Fd) (iface : string) : M W (option error) :=
  err <- call (EnableHWTimestampsSocket P fd iface) ;;
  emit (EvEnableHWTimestampsSocket fd iface err) ;;
  ret err.
Definition enableSWTimestampsSocket (fd : Fd) : M W (option error) :=
  err <- call (EnableSWTimestampsSocket P fd) ;;
  emit (EvEnableSWTimestampsSocket fd err) ;;
  ret err.
Definition sendto (fd : Fd) (buf : list Byte.byte) (to : Sockaddr) : M W (option error) :=
  err <- call (Sendto P fd buf to) ;;
  emit (EvSendto fd buf to err) ;;
  ret err.

(** [defer d] around the rest of the function: [d] runs when the body
    returns or panics, and does not run when the process exits. *)
Definition defer {A} (d : M W unit) (body : M W A) : M W A :=
  fun st =>
    match body st with
    | (Brk OsExit, st') => (Brk OsExit, st')
    | (r, st') => (r, snd (d st'))
    end.

(** Modelled from the spec: the loop of [ReadTXtimestampBuf] of the
    protocol package, which is outside the sources at hand (section 4.1,
    TX-timestamp retrieval loop): a bounded number of read attempts on the
    error queue, counting attempts; success the first time a timestamp is
    found, failure once the bound is exhausted. *)
Fixpoint retrieve (fuel : nat) (attempts : Z) (fd : Fd) (w : W)
  : (Time * Z * option error) * W :=
  match fuel with
  | O => ((0, attempts, Some "no TX timestamp found"), w)
  | S fuel' =>
      match recvTXTimestamp P fd w with
      | (Some ts, w') => ((ts, attempts + 1, None), w')
      | (None, w') => retrieve fuel' (attempts + 1) fd w'
      end
  end.
(** Modelled from the spec: [ReadTXtimestampBuf], the retrieval loop run
    from zero attempts with the bound of the platform; it returns the
    timestamp, the attempts made and the error. *)
Definition ReadTXtimestampBuf (fd : Fd) (w : W) : (Time * Z * option error) * W :=
  retrieve (maxTXTS P) 0 fd w.
Definition readTXtimestampBuf (fd : Fd) : M W (Time * Z * option error) :=
  r <- call (ReadTXtimestampBuf fd) ;;
  emit (EvReadTXtimestampBuf fd (fst (fst r)) (snd (fst r)) (snd r)) ;;
  ret r.

(** Reading and writing the client a queue entry points to. *)
Definition deref (p : loc) : M W SubscriptionClient :=
  fun st =>
    match heap st !! p with
    | Some c => (Val c, st)
    | None => (Brk Panic, st)
    end.
Definition advance (c : SubscriptionClient) : SubscriptionClient :=
  {| eclisa := eclisa c; gclisa := gclisa c;
     subscriptionType := subscriptionType c;
     sequenceID := seqIncr (sequenceID c);
     delayRespP := delayRespP c |}.
Definition incSequenceID (p : loc) : M W unit :=
  fun st =>
    match heap st !! p with
    | Some c =>
        (Val tt, mkState (world st) (<[p := advance c]> (heap st)) (queue st) (trace st))
    | None => (Brk Panic, st)
    end.
Definition queueLen : M W Z :=
  fun st => (Val (Z.of_nat (length (queue st))), st).

Section Loop.
Variable s : sendWorker.
Variables eFd gFd : Fd.

(** The [switch c.subscriptionType] of the loop body. *)
Definition dispatch (c : SubscriptionClient) : M W unit :=
  match subscriptionType c with
  | MessageSync =>
      let sync := syncPacket c in
      buf <- unwrap (BytesTo P sync)
               (logf ErrorLevel "Failed to generate the sync packet: %v" ;; brk Continue) ;;
      logf DebugLevel "Sending sync" ;;
      logf TraceLevel "Sending sync %+v to %s from %d" ;;
      err <- sendto eFd buf (eclisa c) ;;
      check err (logf ErrorLevel "Failed to send the sync packet: %v" ;; brk Continue) ;;
      IncTX (subscriptionType c) ;;
      r <- readTXtimestampBuf eFd ;;
      let '(txTS, attempts, err) := r in
      SetMaxTXTSAttempts (id s) attempts ;;
      check err (logf WarnLevel "Failed to read TX timestamp: %v" ;; brk Continue) ;;
      let txTS :=
        if decide (cfgTimestampType (config s) <> HWTIMESTAMP)
        then Time_Add txTS (UTCOffset (config s))
        else txTS in
      logf DebugLevel "Read TX timestamp: %v" ;;
      let followup := followupPacket c txTS in
      buf <- unwrap (BytesTo P followup)
               (logf ErrorLevel "Failed to generate the followup packet: %v" ;; brk Continue) ;;
      logf DebugLevel "Sending followup" ;;
      logf TraceLevel "Sending followup %+v with ts: %s to %s from %d" ;;
      err <- sendto gFd buf (gclisa c) ;;
      check err (logf ErrorLevel "Failed to send the followup packet: %v" ;; brk Continue) ;;
      IncTX MessageFollowUp
  | MessageAnnounce =>
      let announce := announcePacket c in
      buf <- unwrap (BytesTo P announce)
               (logf ErrorLevel "Failed to prepare the announce packet: %v" ;; brk Continue) ;;
      logf DebugLevel "Sending announce" ;;
      logf TraceLevel "Sending announce %+v to %s from %d" ;;
      err <- sendto gFd buf (gclisa c) ;;
      check err (logf ErrorLevel "Failed to send the announce packet: %v" ;; brk Continue) ;;
      IncTX (subscriptionType c)
  | MessageDelayResp =>
      buf <- unwrap (BytesTo P (DelayRespPacket (delayRespP c)))
               (logf ErrorLevel "Failed to prepare the delay response packet: %v" ;; brk Continue) ;;
      logf DebugLevel "Sending delay response" ;;
      logf TraceLevel "Sending delay response %+v to %s from %d" ;;
      err <- sendto gFd buf (gclisa c) ;;
      check err (logf ErrorLevel "Failed to send the delay response: %v" ;; brk Return) ;;
      IncTX (subscriptionType c)
  | _ =>
      logf ErrorLevel "Unknown subscription type: %v" ;; brk Continue
  end.

(** One pass through the body of [for c := range s.queue]. The client is
    read once through the pointer: nothing writes it before
    [c.sequenceID++], which goes through the pointer again. *)
Definition iteration (p : loc) : M W unit :=
  c <- deref p ;;
  logf DebugLevel "Processing client: %s" ;;
  dispatch c ;;
  incSequenceID p ;;
  SetMaxWorkerLoad (id s) (load s) ;;
  depth <- queueLen ;;
  SetMaxWorkerQueue (id s) depth.

(** [for c := range s.queue]: the jobs of the channel in order, until it
    is closed and drained. Receiving a job removes it from the channel;
    [continue] ends the pass, every other exit ends the loop. *)
Definition receive (rest : list loc) : M W unit :=
  fun st => (Val tt, mkState (world st) (heap st) rest (trace st)).
Definition pass (body : M W unit) : M W unit :=
  fun st =>
    match body st with
    | (Brk Continue, st') => (Val tt, st')
    | r => r
    end.
Fixpoint range (q : list loc) : M W unit :=
  match q with
  | [] => ret tt
  | p :: rest => receive rest ;; pass (iteration p) ;; range rest
  end.
Definition loop : M W unit := fun st => range (queue st) st.

End Loop.

(** [sendWorker.Start]: the setup, then the job loop. The two deferred
    [Close] calls wrap the rest of the function in the order of the
    source, so the general socket is closed first on return. *)
Definition Start (s : sendWorker) : M W unit :=
  r <- listenUDP (cfgIP (config s)) ;;
  econn <- unwrap r (Fatalf "Binding to event socket error: %s") ;;
  defer (close econn) (
    r <- connFd econn ;;
    eFd <- unwrap r (Fatalf "Getting event connection FD: %s") ;;
    match cfgTimestampType (config s) with
    | HWTIMESTAMP =>
        err <- enableHWTimestampsSocket eFd (Interface (config s)) ;;
        check err (Fatalf "Failed to enable RX hardware timestamps: %v")
    | SWTIMESTAMP =>
        err <- enableSWTimestampsSocket eFd ;;
        check err (Fatalf "Unable to enable RX software timestamps")
    | _ => Fatalf "Unrecognized timestamp type: %s"
    end ;;
    r <- listenUDP (cfgIP (config s)) ;;
    gconn <- unwrap r (Fatalf "Binding to general socket error: %s") ;;
    defer (close gconn) (
      r <- connFd gconn ;;
      gFd <- unwrap r (Fatalf "Getting general connection FD: %s") ;;
      loop s eFd gFd)).

End Worker.

(** ** A scripted platform

    A world for concrete runs: it counts the sockets opened so far (the
    n-th socket gets handle [n] and descriptor [10 + n]) and follows a
    script saying which calls fail. *)
Module Mock.

Record Script := {
  listenFails : Z -> bool;
  connFdFails : UDPConn -> bool;
  enableFails : bool;
  sendFails : Fd -> Sockaddr -> bool;
  marshalFails : Packet -> bool;
  bound : nat;
  tsAfter : option nat;
  txTimestamp : Time
}.

(** The world: sockets opened so far, reads of the error queue since the
    last send. *)
Record World := { opened : Z; reads : nat }.

Definition encode (p : Packet) : list Byte.byte :=
  match p with
  | SyncPacket _ => [Byte.x00]
  | FollowUpPacket _ _ => [Byte.x08]
  | AnnouncePacket _ => [Byte.x0b]
  | DelayRespPacket b => Byte.x09 :: delayRespBody b
  end.

Definition platform (sc : Script) : Platform World := {|
  ListenUDP := fun _ w =>
    if listenFails sc (opened w) then (Err "bind", w)
    else (Ok (opened w), {| opened := opened w + 1; reads := reads w |});
  Close := fun _ w => w;
  ConnFd := fun c w => if connFdFails sc c then (Err "fd", w) else (Ok (10 + c), w);
  EnableHWTimestampsSocket := fun _ _ w =>
    (if enableFails sc then Some "ioctl" else None, w);
  EnableSWTimestampsSocket := fun _ w =>
    (if enableFails sc then Some "setsockopt" else None, w);
  Sendto := fun fd _ to w =>
    (if sendFails sc fd to then Some "sendto" else None,
     {| opened := opened w; reads := 0 |});
  BytesTo := fun p => if marshalFails sc p then Err "marshal" else Ok (encode p);
  maxTXTS := bound sc;
  recvTXTimestamp := fun _ w =>
    (match tsAfter sc with
     | Some n => if decide (n <= reads w)%nat then Some (txTimestamp sc) else None
     | None => None
     end,
     {| opened := opened w; reads := S (reads w) |})
|}.

(** A script: whether enabling timestamps fails, the descriptors on
    which sends fail, and the read at which the timestamp shows up. *)
Definition script (enable : bool) (failing : Fd -> bool) (ts : option nat) : Script := {|
  listenFails := fun _ => false;
  connFdFails := fun _ => false;
  enableFails := enable;
  sendFails := fun fd _ => failing fd;
  marshalFails := fun _ => false;
  bound := 3;
  tsAfter := ts;
  txTimestamp := 1000
|}.

(** Nothing fails; the timestamp is found at the first read. *)
Definition happy : Script := script false (fun _ => false) (Some 0%nat).
(** The timestamp never shows up. *)
Definition noTimestamp : Script := script false (fun _ => false) None.
(** Sends fail on the event descriptor, or on the general one. *)
Definition eventSendFails : Script :=
  script false (fun fd => bool_decide (fd = 10)) (Some 0%nat).
Definition generalSendFails : Script :=
  script false (fun fd => bool_decide (fd = 11)) (Some 0%nat).
(** Enabling timestamps fails. *)
Definition enableFailure : Script := script true (fun _ => false) (Some 0%nat).

Definition w0 : World := {| opened := 0; reads := 0 |}.

(** The client of the scenarios of the spec: event peer 10.0.0.5:319,
    general peer 10.0.0.5:320, sequence number 41. *)
Definition client (t : MessageType) : SubscriptionClient := {|
  eclisa := {| saAddr := [10; 0; 0; 5]; saPort := 319 |};
  gclisa := {| saAddr := [10; 0; 0; 5]; saPort := 320 |};
  subscriptionType := t;
  sequenceID := 41;
  delayRespP := {| delayRespBody := [Byte.x2a] |}
|}.

Definition cfg (t : TimestampType) : Config := {|
  cfgIP := [10; 0; 0; 1];
  Interface := "eth0";
  cfgTimestampType := t;
  UTCOffset := 37000000
|}.

Definition worker (t : TimestampType) : sendWorker :=
  {| id := 7; load := 2; config := cfg t |}.

Definition init (h : gmap loc SubscriptionClient) (q : list loc) : State World :=
  mkState w0 h q [].

(** One client at location 1, subscribed to [t], and the given jobs. *)
Definition one (t : MessageType) (q : list loc) : State World :=
  init {[ 1%nat := client t ]} q.

(** Serialization fails; everything else succeeds. *)
Definition marshalFailure : Script := {|
  listenFails := fun _ => false;
  connFdFails := fun _ => false;
  enableFails := false;
  sendFails := fun _ _ => false;
  marshalFails := fun _ => true;
  bound := 3;
  tsAfter := Some 0%nat;
  txTimestamp := 1000
|}.

End Mock.

(** ** Reading traces *)

(** The events a computation appends to the trace. *)
Definition events {W A} (m : M W A) (st : State W) : list Event :=
  drop (length (trace st)) (trace (snd (m st))).

(** The sends recorded in a trace, and the transmit-count increments. *)
Definition isSend (e : Event) : bool :=
  match e with EvSendto _ _ _ _ => true | _ => false end.
Definition sends (evs : list Event) : list Event := List.filter isSend evs.

Definition incTX (e : Event) : option MessageType :=
  match e with EvIncTX t => Some t | _ => None end.
Definition increments (evs : list Event) : list MessageType := omap incTX evs.
Definition countTX (t : MessageType) (evs : list Event) : nat :=
  length (List.filter (fun t' => bool_decide (t' = t)) (increments evs)).


(** The reports of retrieval attempts, and the retrievals themselves. *)
Definition isAttemptReport (e : Event) : bool :=
  match e with EvSetMaxTXTSAttempts _ _ => true | _ => false end.
Definition isRetrieval (e : Event) : bool :=
  match e with EvReadTXtimestampBuf _ _ _ _ => true | _ => false end.

(** The failures a job reports: every abandoned job logs at error or
    warning level. *)
Definition isFailureLog (e : Event) : bool :=
  match e with EvLog ErrorLevel _ | EvLog WarnLevel _ => true | _ => false end.

(** The kind of message a packet is. *)
Definition packetType (p : Packet) : MessageType :=
  match p with
  | SyncPacket _ => MessageSync
  | FollowUpPacket _ _ => MessageFollowUp
  | AnnouncePacket _ => MessageAnnounce
  | DelayRespPacket _ => MessageDelayResp
  end.

(** A send or a retrieval on the descriptor it belongs to: a Sync on the
    event descriptor, a Follow-Up, Announce or Delay-Response on the
    general descriptor, a retrieval on the event descriptor. *)
Definition onItsDescriptor {W} (P : Platform W) (eFd gFd : Fd) (e : Event) : Prop :=
  match e with
  | EvSendto fd buf _ _ =>
      (fd = eFd /\ exists pkt, BytesTo P pkt = Ok buf /\ packetType pkt = MessageSync)
      \/ (fd = gFd /\ exists pkt, BytesTo P pkt = Ok buf /\
          In (packetType pkt) [MessageFollowUp; MessageAnnounce; MessageDelayResp])
  | EvReadTXtimestampBuf fd _ _ _ => fd = eFd
  | _ => True
  end.

(** The state in which the body runs once a job has been received. *)
Definition received {W} (st : State W) (rest : list loc) : State W :=
  mkState (world st) (heap st) rest (trace st).


(** The shapes the transmit-count increments of one job can take. *)
Definition jobIncrements : list (list MessageType) :=
  [ []; [MessageSync]; [MessageSync; MessageFollowUp];
    [MessageAnnounce]; [MessageDelayResp] ].

(** No Follow-Up increment outruns the Sync increments: in every prefix
    of the events there are at least as many Sync increments as Follow-Up
    increments. *)
Definition followupsWithinSyncs (evs : list Event) : Prop :=
  forall pre, pre `prefix_of` evs ->
    (countTX MessageFollowUp pre <= countTX MessageSync pre)%nat.

(** The calls of the setup, and among them the failures that abort it. *)
Definition isSetupEvent (e : Event) : bool :=
  match e with
  | EvListenUDP _ _ | EvConnFd _ _ | EvEnableHWTimestampsSocket _ _ _
  | EvEnableSWTimestampsSocket _ _ | EvLog FatalLevel _ => true
  | _ => false
  end.
Definition isSetupFailure (e : Event) : bool :=
  match e with
  | EvListenUDP _ (Err _) | EvConnFd _ (Err _)
  | EvEnableHWTimestampsSocket _ _ (Some _)
  | EvEnableSWTimestampsSocket _ (Some _) => true
  | _ => false
  end.
Definition isOpen (e : Event) : option UDPConn :=
  match e with EvListenUDP _ (Ok c) => Some c | _ => None end.
Definition isClose (e : Event) : option UDPConn :=
  match e with EvClose c => Some c | _ => None end.

(** The calls a job makes: sends, retrievals, stats and log lines below
    the fatal level. *)
Definition isJobEvent (e : Event) : bool :=
  match e with
  | EvSendto _ _ _ _ | EvReadTXtimestampBuf _ _ _ _ | EvIncTX _
  | EvSetMaxTXTSAttempts _ _ | EvSetMaxWorkerLoad _ _ | EvSetMaxWorkerQueue _ _ => true
  | EvLog FatalLevel _ => false
  | EvLog _ _ => true
  | _ => false
  end.

(** ** Further readings of traces *)

(** A send that succeeded, and a send that failed. *)
Definition isSuccessfulSend (e : Event) : bool :=
  match e with EvSendto _ _ _ None => true | _ => false end.
Definition isFailedSend (e : Event) : bool :=
  match e with EvSendto _ _ _ (Some _) => true | _ => false end.

(** The attempt count a retrieval returned, and the worker and attempt
    count of a report to the stats sink. *)
Definition retrievedAttempts (e : Event) : option Z :=
  match e with EvReadTXtimestampBuf _ _ n _ => Some n | _ => None end.
Definition reportedAttempts (e : Event) : option (Z * Z) :=
  match e with EvSetMaxTXTSAttempts w n => Some (w, n) | _ => None end.

(** A line logged at the fatal level. *)
Definition isFatalLog (e : Event) : bool :=
  match e with EvLog FatalLevel _ => true | _ => false end.

(** What the worker never writes in a client: everything but the
    sequence number. *)
Definition fixedPart (c : SubscriptionClient)
  : Sockaddr * Sockaddr * MessageType * DelayResp :=
  (eclisa c, gclisa c, subscriptionType c, delayRespP c).

(** The message a job serializes first, by its type. *)
Definition firstPacket (c : SubscriptionClient) : option Packet :=
  match subscriptionType c with
  | MessageSync => Some (syncPacket c)
  | MessageAnnounce => Some (announcePacket c)
  | MessageDelayResp => Some (DelayRespPacket (delayRespP c))
  | _ => None
  end.

(** The calls of a setup that succeeds, in the order of the source: bind
    the event socket, take its descriptor, enable the timestamps of the
    configured mode on it, bind the general socket, take its descriptor. *)
Definition setupCalls (s : sendWorker) (econn gconn : UDPConn) (eFd gFd : Fd)
  : list Event :=
  [EvListenUDP (cfgIP (config s)) (Ok econn);
   EvConnFd econn (Ok eFd);
   match cfgTimestampType (config s) with
   | SWTIMESTAMP => EvEnableSWTimestampsSocket eFd None
   | _ => EvEnableHWTimestampsSocket eFd (Interface (config s)) None
   end;
   EvListenUDP (cfgIP (config s)) (Ok gconn);
   EvConnFd gconn (Ok gFd)].

(** The accounting the worker keeps with the stats sink of worker [w]:
    one transmit count per successful send, one attempt report per
    retrieval with the count it returned, one retrieval per counted Sync. *)
Definition accounted (w : Z) (evs : list Event) : Prop :=
  length (increments evs) = length (List.filter isSuccessfulSend evs) /\
  omap reportedAttempts evs = List.map (pair w) (omap retrievedAttempts evs) /\
  length (omap retrievedAttempts evs) = countTX MessageSync evs.

(** ** Properties of one job *)

Ltac unfold_worker :=
  unfold iteration, dispatch, incSequenceID, queueLen, deref, sendto,
    readTXtimestampBuf, unwrap, check, Fatalf, logf, IncTX, SetMaxTXTSAttempts,
    SetMaxWorkerLoad, SetMaxWorkerQueue, emit, call, brk, bind, ret in *.

(** Case analysis on every answer of the platform along a job. *)
Ltac paths := repeat (case_match; simpl in *; simplify_eq).

(** The appended events of an explicit final trace. *)
Ltac norm_trace :=
  unfold events; simpl; repeat (rewrite <- app_assoc; simpl);
  rewrite ?drop_app_length, ?drop_all.

Ltac run_job := unfold events in *; unfold_worker; paths; norm_trace.

Ltac unfold_start :=
  unfold Start, listenUDP, connFd, enableHWTimestampsSocket,
    enableSWTimestampsSocket, close, defer, unwrap, check, Fatalf, logf,
    emit, call, brk, bind, ret in *.

(** Reading the appended events off a final trace. *)
Lemma events_eq {W A} (m : M W A) (st : State W) (a : list Event) :
  trace (snd (m st)) = trace st ++ a -> events m st = a.
Proof. intros H. unfold events. rewrite H. apply drop_app_length. Qed.

Lemma events_intro {W A} (m : M W A) (st : State W) :
  (exists a, trace (snd (m st)) = trace st ++ a) ->
  trace (snd (m st)) = trace st ++ events m st.
Proof. intros [a H]. rewrite (events_eq m st a H). exact H. Qed.

Section Job.
Context {W : Type} (P : Platform W) (seqBits : Z).
Context (s : sendWorker) (eFd gFd : Fd).

(** A job only appends to the trace. *)
Lemma iteration_extends (p : loc) (st : State W) :
  trace (snd (iteration P seqBits s eFd gFd p st)) =
  trace st ++ events (iteration P seqBits s eFd gFd p) st.
Proof.
  run_job; rewrite ?app_nil_r; reflexivity.
Qed.


(** A job never exits the process. *)
Lemma iteration_no_exit (p : loc) (st : State W) :
  fst (iteration P seqBits s eFd gFd p st) <> Brk OsExit.
Proof. unfold_worker. paths; discriminate. Qed.

(** The store after a job: the client's counter has advanced when the
    job reached the end of the loop body, and nothing changed when it was
    abandoned. *)
Lemma iteration_heap (p : loc) (st : State W) :
  match fst (iteration P seqBits s eFd gFd p st) with
  | Val _ =>
      exists c, heap st !! p = Some c /\
                heap (snd (iteration P seqBits s eFd gFd p st)) =
                  <[p := advance seqBits c]> (heap st)
  | Brk _ => heap (snd (iteration P seqBits s eFd gFd p st)) = heap st
  end.
Proof.
  unfold_worker. paths; try exact eq_refl; eexists; split; exact eq_refl.
Qed.

(** *** The retrieval loop *)

Lemma retrieve_exhausted (fuel : nat) (a : Z) (fd : Fd) (w w' : W)
    (ts : Time) (n : Z) (e : error) :
  retrieve P fuel a fd w = ((ts, n, Some e), w') ->
  n = a + Z.of_nat fuel.
Proof.
  revert a w. induction fuel as [|fuel IH]; intros a w H; simpl in H.
  - inversion H. lia.
  - destruct (recvTXTimestamp P fd w) as [[t|] w1]; [discriminate|].
    apply IH in H. lia.
Qed.

Lemma ReadTXtimestampBuf_exhausted (fd : Fd) (w w' : W)
    (ts : Time) (n : Z) (e : error) :
  ReadTXtimestampBuf P fd w = ((ts, n, Some e), w') ->
  n = Z.of_nat (maxTXTS P).
Proof. intros H. apply retrieve_exhausted in H. lia. Qed.

(** *** Unknown message types *)

(** C6. A job whose message type is not Sync, Announce or DelayResp
    logs the unknown type and is skipped: the pass ends by [continue],
    the world, the store (so the client's sequence number) and the
    channel are unchanged, and the only events are the two log lines:
    no transmit count, no load, no queue depth is recorded. *)
Theorem unknown_type_skipped (p : loc) (c : SubscriptionClient) (st : State W) :
  heap st !! p = Some c ->
  subscriptionType c <> MessageSync ->
  subscriptionType c <> MessageAnnounce ->
  subscriptionType c <> MessageDelayResp ->
  iteration P seqBits s eFd gFd p st =
    (Brk Continue,
     mkState (world st) (heap st) (queue st)
       (trace st ++ [EvLog DebugLevel "Processing client: %s";
                     EvLog ErrorLevel "Unknown subscription type: %v"])).
Proof.
  intros Hc H1 H2 H3. unfold_worker. rewrite Hc. simpl.
  destruct (subscriptionType c); try congruence; simpl;
    rewrite <- app_assoc; reflexivity.
Qed.

(** *** Sync and Follow-Up *)

(** The whole of a Sync job that reaches the end of the loop body. *)
Lemma sync_job_completed (p : loc) (c : SubscriptionClient) (st : State W) :
  heap st !! p = Some c ->
  subscriptionType c = MessageSync ->
  fst (iteration P seqBits s eFd gFd p st) = Val tt ->
  exists (sbuf fbuf : list Byte.byte) (txTS : Time) (attempts : Z) (w1 w2 : W),
    BytesTo P (syncPacket c) = Ok sbuf /\
    Sendto P eFd sbuf (eclisa c) (world st) = (None, w1) /\
    ReadTXtimestampBuf P eFd w1 = ((txTS, attempts, None), w2) /\
    BytesTo P (followupPacket c
                 (if decide (cfgTimestampType (config s) = HWTIMESTAMP)
                  then txTS else Time_Add txTS (UTCOffset (config s)))) = Ok fbuf /\
    events (iteration P seqBits s eFd gFd p) st =
      [EvLog DebugLevel "Processing client: %s";
       EvLog DebugLevel "Sending sync";
       EvLog TraceLevel "Sending sync %+v to %s from %d";
       EvSendto eFd sbuf (eclisa c) None;
       EvIncTX MessageSync;
       EvReadTXtimestampBuf eFd txTS attempts None;
       EvSetMaxTXTSAttempts (id s) attempts;
       EvLog DebugLevel "Read TX timestamp: %v";
       EvLog DebugLevel "Sending followup";
       EvLog TraceLevel "Sending followup %+v with ts: %s to %s from %d";
       EvSendto gFd fbuf (gclisa c) None;
       EvIncTX MessageFollowUp;
       EvSetMaxWorkerLoad (id s) (load s);
       EvSetMaxWorkerQueue (id s) (Z.of_nat (length (queue st)))].
Proof.
  intros Hc Ht. run_job; intros; try discriminate; try congruence;
    try contradiction;
    do 6 eexists; do 4 (split; [first [eassumption | reflexivity]|]);
    reflexivity.
Qed.

(** C2. In a Sync job that succeeds through Follow-Up, the Follow-Up
    transmitted on the general descriptor carries as its origin timestamp
    the timestamp returned by the retrieval that followed the Sync send,
    plus the configured offset exactly when the mode is Software (the
    mode is Hardware or Software whenever the loop runs). *)
Theorem followup_origin_timestamp (p : loc) (c : SubscriptionClient) (st : State W) :
  heap st !! p = Some c ->
  subscriptionType c = MessageSync ->
  cfgTimestampType (config s) = HWTIMESTAMP \/
    cfgTimestampType (config s) = SWTIMESTAMP ->
  fst (iteration P seqBits s eFd gFd p st) = Val tt ->
  exists (sbuf fbuf : list Byte.byte) (txTS : Time) (attempts : Z) (w1 w2 : W)
         (followup : Packet),
    BytesTo P (syncPacket c) = Ok sbuf /\
    Sendto P eFd sbuf (eclisa c) (world st) = (None, w1) /\
    ReadTXtimestampBuf P eFd w1 = ((txTS, attempts, None), w2) /\
    List.filter isRetrieval (events (iteration P seqBits s eFd gFd p) st) =
      [EvReadTXtimestampBuf eFd txTS attempts None] /\
    BytesTo P followup = Ok fbuf /\
    sends (events (iteration P seqBits s eFd gFd p) st) =
      [EvSendto eFd sbuf (eclisa c) None; EvSendto gFd fbuf (gclisa c) None] /\
    packetType followup = MessageFollowUp /\
    packetOriginTimestamp followup =
      Some (if decide (cfgTimestampType (config s) = SWTIMESTAMP)
            then txTS + UTCOffset (config s) else txTS).
Proof.
  intros Hc Ht Hmode Hok.
  destruct (sync_job_completed p c st Hc Ht Hok)
    as (sbuf & fbuf & txTS & attempts & w1 & w2 & Hs & Hsend & Hread & Hf & Hev).
  exists sbuf, fbuf, txTS, attempts, w1, w2.
  eexists. rewrite Hev. repeat (split; [eassumption || reflexivity|]).
  simpl. f_equal. unfold Time_Add.
  destruct Hmode as [Hm|Hm]; rewrite Hm; reflexivity.
Qed.

(** C5. In a Sync job that succeeds through Follow-Up, exactly two
    datagrams are sent: the Sync on the event descriptor to the client's
    event address, then the Follow-Up on the general descriptor to the
    client's general address; both are built for the same sequence
    number, the client's current one. *)
Theorem sync_then_followup (p : loc) (c : SubscriptionClient) (st : State W) :
  heap st !! p = Some c ->
  subscriptionType c = MessageSync ->
  fst (iteration P seqBits s eFd gFd p st) = Val tt ->
  exists (sbuf fbuf : list Byte.byte) (sync followup : Packet),
    BytesTo P sync = Ok sbuf /\
    BytesTo P followup = Ok fbuf /\
    sends (events (iteration P seqBits s eFd gFd p) st) =
      [EvSendto eFd sbuf (eclisa c) None; EvSendto gFd fbuf (gclisa c) None] /\
    packetType sync = MessageSync /\
    packetType followup = MessageFollowUp /\
    packetSequenceID sync = Some (sequenceID c) /\
    packetSequenceID followup = packetSequenceID sync.
Proof.
  intros Hc Ht Hok.
  destruct (sync_job_completed p c st Hc Ht Hok)
    as (sbuf & fbuf & txTS & attempts & w1 & w2 & Hs & Hsend & Hread & Hf & Hev).
  exists sbuf, fbuf. do 2 eexists. rewrite Hev.
  repeat (split; [eassumption || reflexivity|]). reflexivity.
Qed.

(** *** Abandoned jobs *)

Lemma sync_send_failed (p : loc) (c : SubscriptionClient) (st : State W)
    (sbuf : list Byte.byte) (e : error) (w1 : W) :
  heap st !! p = Some c ->
  subscriptionType c = MessageSync ->
  BytesTo P (syncPacket c) = Ok sbuf ->
  Sendto P eFd sbuf (eclisa c) (world st) = (Some e, w1) ->
  iteration P seqBits s eFd gFd p st =
    (Brk Continue,
     mkState w1 (heap st) (queue st)
       (trace st ++ [EvLog DebugLevel "Processing client: %s";
                     EvLog DebugLevel "Sending sync";
                     EvLog TraceLevel "Sending sync %+v to %s from %d";
                     EvSendto eFd sbuf (eclisa c) (Some e);
                     EvLog ErrorLevel "Failed to send the sync packet: %v"])).
Proof.
  intros Hc Ht Hb Hs. unfold_worker. rewrite Hc. simpl. rewrite Ht, Hb. simpl.
  rewrite Hs. simpl. repeat (rewrite <- app_assoc; simpl). reflexivity.
Qed.

Lemma sync_retrieval_failed (p : loc) (c : SubscriptionClient) (st : State W)
    (sbuf : list Byte.byte) (w1 w2 : W) (ts : Time) (n : Z) (e : error) :
  heap st !! p = Some c ->
  subscriptionType c = MessageSync ->
  BytesTo P (syncPacket c) = Ok sbuf ->
  Sendto P eFd sbuf (eclisa c) (world st) = (None, w1) ->
  ReadTXtimestampBuf P eFd w1 = ((ts, n, Some e), w2) ->
  iteration P seqBits s eFd gFd p st =
    (Brk Continue,
     mkState w2 (heap st) (queue st)
       (trace st ++ [EvLog DebugLevel "Processing client: %s";
                     EvLog DebugLevel "Sending sync";
                     EvLog TraceLevel "Sending sync %+v to %s from %d";
                     EvSendto eFd sbuf (eclisa c) None;
                     EvIncTX MessageSync;
                     EvReadTXtimestampBuf eFd ts n (Some e);
                     EvSetMaxTXTSAttempts (id s) n;
                     EvLog WarnLevel "Failed to read TX timestamp: %v"])).
Proof.
  intros Hc Ht Hb Hs Hr. unfold_worker. rewrite Hc. simpl. rewrite Ht, Hb. simpl.
  rewrite Hs. simpl. rewrite Hr. simpl.
  repeat (rewrite <- app_assoc; simpl). reflexivity.
Qed.

Lemma announce_send_failed (p : loc) (c : SubscriptionClient) (st : State W)
    (buf : list Byte.byte) (e : error) (w1 : W) :
  heap st !! p = Some c ->
  subscriptionType c = MessageAnnounce ->
  BytesTo P (announcePacket c) = Ok buf ->
  Sendto P gFd buf (gclisa c) (world st) = (Some e, w1) ->
  iteration P seqBits s eFd gFd p st =
    (Brk Continue,
     mkState w1 (heap st) (queue st)
       (trace st ++ [EvLog DebugLevel "Processing client: %s";
                     EvLog DebugLevel "Sending announce";
                     EvLog TraceLevel "Sending announce %+v to %s from %d";
                     EvSendto gFd buf (gclisa c) (Some e);
                     EvLog ErrorLevel "Failed to send the announce packet: %v"])).
Proof.
  intros Hc Ht Hb Hs. unfold_worker. rewrite Hc. simpl. rewrite Ht, Hb. simpl.
  rewrite Hs. simpl. repeat (rewrite <- app_assoc; simpl). reflexivity.
Qed.

Lemma delay_resp_send_failed (p : loc) (c : SubscriptionClient) (st : State W)
    (buf : list Byte.byte) (e : error) (w1 : W) :
  heap st !! p = Some c ->
  subscriptionType c = MessageDelayResp ->
  BytesTo P (DelayRespPacket (delayRespP c)) = Ok buf ->
  Sendto P gFd buf (gclisa c) (world st) = (Some e, w1) ->
  iteration P seqBits s eFd gFd p st =
    (Brk Return,
     mkState w1 (heap st) (queue st)
       (trace st ++ [EvLog DebugLevel "Processing client: %s";
                     EvLog DebugLevel "Sending delay response";
                     EvLog TraceLevel "Sending delay response %+v to %s from %d";
                     EvSendto gFd buf (gclisa c) (Some e);
                     EvLog ErrorLevel "Failed to send the delay response: %v"])).
Proof.
  intros Hc Ht Hb Hs. unfold_worker. rewrite Hc. simpl. rewrite Ht, Hb. simpl.
  rewrite Hs. simpl. repeat (rewrite <- app_assoc; simpl). reflexivity.
Qed.

(** C3. In a Sync job, a failed Sync send leaves that failed send as
    the only send of the job, and a retrieval that exhausts its attempt
    bound leaves the Sync as the only send: no Follow-Up is transmitted
    in either case. On exhaustion the one attempt count reported to the
    stats sink is the bound. *)
Theorem no_followup_after_sync_failure (p : loc) (c : SubscriptionClient)
    (st : State W) (sbuf : list Byte.byte) :
  heap st !! p = Some c ->
  subscriptionType c = MessageSync ->
  BytesTo P (syncPacket c) = Ok sbuf ->
  (forall (e : error) (w1 : W),
      Sendto P eFd sbuf (eclisa c) (world st) = (Some e, w1) ->
      sends (events (iteration P seqBits s eFd gFd p) st) =
        [EvSendto eFd sbuf (eclisa c) (Some e)]) /\
  (forall (w1 w2 : W) (ts : Time) (n : Z) (e : error),
      Sendto P eFd sbuf (eclisa c) (world st) = (None, w1) ->
      ReadTXtimestampBuf P eFd w1 = ((ts, n, Some e), w2) ->
      sends (events (iteration P seqBits s eFd gFd p) st) =
        [EvSendto eFd sbuf (eclisa c) None] /\
      List.filter isAttemptReport (events (iteration P seqBits s eFd gFd p) st) =
        [EvSetMaxTXTSAttempts (id s) (Z.of_nat (maxTXTS P))]).
Proof.
  intros Hc Ht Hb. split.
  - intros e w1 Hs. unfold events.
    rewrite (sync_send_failed p c st sbuf e w1 Hc Ht Hb Hs). simpl.
    rewrite drop_app_length. reflexivity.
  - intros w1 w2 ts n e Hs Hr. unfold events.
    rewrite (sync_retrieval_failed p c st sbuf w1 w2 ts n e Hc Ht Hb Hs Hr). simpl.
    rewrite drop_app_length.
    rewrite (ReadTXtimestampBuf_exhausted eFd w1 w2 ts n e Hr).
    split; reflexivity.
Qed.

(** *** The shape of a job's events *)

(** Every send and retrieval of a job is on its descriptor. *)
Lemma iteration_descriptors (p : loc) (st : State W) :
  Forall (onItsDescriptor P eFd gFd) (events (iteration P seqBits s eFd gFd p) st).
Proof.
  run_job; repeat (apply List.Forall_cons || apply List.Forall_nil);
    simpl; try exact I; try exact eq_refl.
  all: first
    [ left; split; [exact eq_refl|]; eexists; split; [eassumption|exact eq_refl]
    | right; split; [exact eq_refl|]; eexists; split;
      [eassumption|simpl; intuition congruence] ].
Qed.

(** The transmit-count increments of a job. *)
Lemma iteration_increments (p : loc) (st : State W) :
  In (increments (events (iteration P seqBits s eFd gFd p) st)) jobIncrements.
Proof.
  run_job; unfold jobIncrements; simpl; intuition congruence.
Qed.


(** An abandoned job has logged the failure that ended it. *)
Lemma abandoned_job_logs_failure (p : loc) (c : SubscriptionClient) (st : State W) :
  heap st !! p = Some c ->
  fst (iteration P seqBits s eFd gFd p st) <> Val tt ->
  existsb isFailureLog (events (iteration P seqBits s eFd gFd p) st) = true.
Proof. intros Hc. run_job; intros Hne; try exact eq_refl; congruence. Qed.

Lemma iteration_job_events (p : loc) (st : State W) :
  forallb isJobEvent (events (iteration P seqBits s eFd gFd p) st) = true.
Proof. run_job; exact eq_refl. Qed.

End Job.

(** ** Properties of the job loop *)

Lemma countTX_app (t : MessageType) (a b : list Event) :
  countTX t (a ++ b) = (countTX t a + countTX t b)%nat.
Proof.
  unfold countTX, increments. rewrite omap_app, List.filter_app, length_app.
  reflexivity.
Qed.

Lemma prefix_app_cases {A} (pre a b : list A) :
  pre `prefix_of` a ++ b ->
  pre `prefix_of` a \/ exists pre', pre = a ++ pre' /\ pre' `prefix_of` b.
Proof.
  revert pre. induction a as [|x a IH]; intros pre H; simpl in *.
  - right. exists pre. split; [reflexivity | assumption].
  - destruct pre as [|y pre].
    + left. apply prefix_nil.
    + pose proof (prefix_cons_inv_1 _ _ _ _ H) as ->.
      apply prefix_cons_inv_2 in H. destruct (IH _ H) as [Hp | (pre' & -> & Hp)].
      * left. apply prefix_cons. assumption.
      * right. exists pre'. split; [reflexivity | assumption].
Qed.

Lemma followupsWithinSyncs_app (a b : list Event) :
  followupsWithinSyncs a -> followupsWithinSyncs b -> followupsWithinSyncs (a ++ b).
Proof.
  intros Ha Hb pre Hpre.
  destruct (prefix_app_cases pre a b Hpre) as [Hp | (pre' & -> & Hp)].
  - apply Ha, Hp.
  - rewrite !countTX_app.
    specialize (Ha a (reflexivity a)). specialize (Hb pre' Hp). lia.
Qed.

Lemma increments_prefix (pre evs : list Event) :
  pre `prefix_of` evs -> increments pre `prefix_of` increments evs.
Proof.
  intros [k ->]. unfold increments. rewrite omap_app. eexists. reflexivity.
Qed.

Lemma followupsWithinSyncs_job (evs : list Event) :
  In (increments evs) jobIncrements -> followupsWithinSyncs evs.
Proof.
  intros Hin pre Hpre. apply increments_prefix in Hpre.
  unfold countTX. destruct Hpre as [k Hk].
  unfold jobIncrements in Hin. simpl in Hin.
  generalize dependent (increments pre). intros l Hk.
  destruct Hin as [H|[H|[H|[H|[H|[]]]]]]; rewrite <- H in Hk;
    do 3 (try (destruct l as [|? l]; simpl in *; simplify_eq; try lia)).
Qed.

Section Run.
Context {W : Type} (P : Platform W) (seqBits : Z).
Context (s : sendWorker) (eFd gFd : Fd).

Lemma range_cons (p : loc) (rest : list loc) (st : State W) :
  range P seqBits s eFd gFd (p :: rest) st =
  match iteration P seqBits s eFd gFd p (received st rest) with
  | (Val _, st1) | (Brk Continue, st1) => range P seqBits s eFd gFd rest st1
  | (Brk e, st1) => (Brk e, st1)
  end.
Proof.
  simpl. unfold bind, receive, pass, received.
  destruct (iteration P seqBits s eFd gFd p _) as [[[]|[]] st1]; reflexivity.
Qed.

Lemma range_extends (q : list loc) (st : State W) :
  trace (snd (range P seqBits s eFd gFd q st)) =
  trace st ++ events (range P seqBits s eFd gFd q) st.
Proof.
  apply events_intro. revert st. induction q as [|p rest IH]; intros st.
  - exists []. simpl. rewrite app_nil_r. reflexivity.
  - rewrite range_cons.
    pose proof (iteration_extends P seqBits s eFd gFd p (received st rest)) as Hi.
    destruct (iteration P seqBits s eFd gFd p (received st rest)) as [[[]|e] st1];
      simpl in Hi.
    2: destruct e.
    all: try (eexists; exact Hi).
    all: destruct (IH st1) as [a Ha]; eexists; rewrite Ha, Hi, <- app_assoc;
      reflexivity.
Qed.

Lemma range_events_cons (p : loc) (rest : list loc) (st : State W) :
  events (range P seqBits s eFd gFd (p :: rest)) st =
  events (iteration P seqBits s eFd gFd p) (received st rest) ++
  match iteration P seqBits s eFd gFd p (received st rest) with
  | (Val _, st1) | (Brk Continue, st1) => events (range P seqBits s eFd gFd rest) st1
  | _ => []
  end.
Proof.
  apply events_eq. rewrite range_cons.
  pose proof (iteration_extends P seqBits s eFd gFd p (received st rest)) as Hi.
  destruct (iteration P seqBits s eFd gFd p (received st rest)) as [[[]|e] st1];
    simpl in Hi.
  2: destruct e.
  all: try (rewrite app_nil_r; exact Hi).
  all: rewrite range_extends, Hi, <- app_assoc; reflexivity.
Qed.

(** What holds of the events of every job holds of the events of the
    loop, when it is kept by concatenation. *)
Lemma range_events_ind (Q : list Event -> Prop) :
  Q [] ->
  (forall a b, Q a -> Q b -> Q (a ++ b)) ->
  (forall p st, Q (events (iteration P seqBits s eFd gFd p) st)) ->
  forall q st, Q (events (range P seqBits s eFd gFd q) st).
Proof.
  intros Hnil Happ Hjob q. induction q as [|p rest IH]; intros st.
  - unfold events. simpl. rewrite drop_all. exact Hnil.
  - rewrite range_events_cons. apply Happ; [apply Hjob|].
    destruct (iteration P seqBits s eFd gFd p (received st rest)) as [[[]|[]] st1];
      auto.
Qed.

Lemma loop_events (st : State W) :
  events (loop P seqBits s eFd gFd) st =
  events (range P seqBits s eFd gFd (queue st)) st.
Proof. reflexivity. Qed.

(** C9. Every datagram the job loop sends on the event descriptor is a
    Sync, every Follow-Up, Announce and Delay-Response is sent on the
    general descriptor, and the transmit timestamp is read on the event
    descriptor: each send of the loop is a serialized Sync on the event
    descriptor or a serialized Follow-Up, Announce or Delay-Response on the
    general descriptor. *)
Theorem sends_on_their_descriptor (st : State W) :
  Forall (onItsDescriptor P eFd gFd) (events (loop P seqBits s eFd gFd) st).
Proof.
  rewrite loop_events. apply range_events_ind.
  - constructor.
  - intros a b Ha Hb. apply Forall_app. split; assumption.
  - apply iteration_descriptors.
Qed.

End Run.

Section Loop.
Context {W : Type} (P : Platform W) (seqBits : Z).
Context (s : sendWorker) (eFd gFd : Fd).

(** The loop never exits the process. *)
Lemma range_no_exit (q : list loc) (st : State W) :
  fst (range P seqBits s eFd gFd q st) <> Brk OsExit.
Proof.
  revert st. induction q as [|p rest IH]; intros st; [discriminate|].
  rewrite range_cons.
  pose proof (iteration_no_exit P seqBits s eFd gFd p (received st rest)) as Hi.
  destruct (iteration P seqBits s eFd gFd p (received st rest)) as [[[]|[]] st1];
    simpl in *; try apply IH; congruence.
Qed.


Lemma range_followups (q : list loc) (st : State W) :
  followupsWithinSyncs (events (range P seqBits s eFd gFd q) st).
Proof.
  apply range_events_ind.
  - intros pre Hpre. apply prefix_nil_inv in Hpre. subst. reflexivity.
  - apply followupsWithinSyncs_app.
  - intros p st'. apply followupsWithinSyncs_job, iteration_increments.
Qed.





(** C4. When the send of a Delay-Response job fails the loop ends by
    [return] in the state that job left: the jobs behind it are still in
    the channel and the trace ends with the failed send and its log line.
    When the send of a Sync or of an Announce fails the job alone is
    abandoned: the loop goes on with the jobs behind it. *)
Theorem send_failure_policy (p : loc) (rest : list loc) (c : SubscriptionClient)
    (st : State W) (buf : list Byte.byte) (e : error) (w1 : W) :
  queue st = p :: rest ->
  heap st !! p = Some c ->
  (subscriptionType c = MessageDelayResp ->
   BytesTo P (DelayRespPacket (delayRespP c)) = Ok buf ->
   Sendto P gFd buf (gclisa c) (world st) = (Some e, w1) ->
   loop P seqBits s eFd gFd st =
     (Brk Return,
      mkState w1 (heap st) rest
        (trace st ++ [EvLog DebugLevel "Processing client: %s";
                      EvLog DebugLevel "Sending delay response";
                      EvLog TraceLevel "Sending delay response %+v to %s from %d";
                      EvSendto gFd buf (gclisa c) (Some e);
                      EvLog ErrorLevel "Failed to send the delay response: %v"]))) /\
  (subscriptionType c = MessageSync ->
   BytesTo P (syncPacket c) = Ok buf ->
   Sendto P eFd buf (eclisa c) (world st) = (Some e, w1) ->
   loop P seqBits s eFd gFd st =
     loop P seqBits s eFd gFd
       (mkState w1 (heap st) rest
          (trace st ++ [EvLog DebugLevel "Processing client: %s";
                        EvLog DebugLevel "Sending sync";
                        EvLog TraceLevel "Sending sync %+v to %s from %d";
                        EvSendto eFd buf (eclisa c) (Some e);
                        EvLog ErrorLevel "Failed to send the sync packet: %v"]))) /\
  (subscriptionType c = MessageAnnounce ->
   BytesTo P (announcePacket c) = Ok buf ->
   Sendto P gFd buf (gclisa c) (world st) = (Some e, w1) ->
   loop P seqBits s eFd gFd st =
     loop P seqBits s eFd gFd
       (mkState w1 (heap st) rest
          (trace st ++ [EvLog DebugLevel "Processing client: %s";
                        EvLog DebugLevel "Sending announce";
                        EvLog TraceLevel "Sending announce %+v to %s from %d";
                        EvSendto gFd buf (gclisa c) (Some e);
                        EvLog ErrorLevel "Failed to send the announce packet: %v"]))).
Proof.
  intros Hq Hc.
  repeat split; intros Ht Hb Hs; unfold loop at 1; rewrite Hq, range_cons.
  - rewrite (delay_resp_send_failed P seqBits s eFd gFd p c (received st rest)
               buf e w1 Hc Ht Hb Hs). reflexivity.
  - rewrite (sync_send_failed P seqBits s eFd gFd p c (received st rest)
               buf e w1 Hc Ht Hb Hs). reflexivity.
  - rewrite (announce_send_failed P seqBits s eFd gFd p c (received st rest)
               buf e w1 Hc Ht Hb Hs). reflexivity.
Qed.

End Loop.

(** ** Properties of [Start] *)

Lemma job_events_not_setup (evs : list Event) :
  forallb isJobEvent evs = true ->
  omap isOpen evs = [] /\ omap isClose evs = [] /\
  existsb isSetupFailure evs = false.
Proof.
  induction evs as [|e evs IH]; simpl; [auto|].
  intros H. apply andb_prop in H. destruct H as [He H].
  destruct (IH H) as (H1 & H2 & H3).
  destruct e as [| | | | | | | | | | |[]]; simpl in *; try discriminate; auto.
Qed.

Lemma setup_events_not_job (evs : list Event) :
  forallb isSetupEvent evs = true ->
  omap isClose evs = [] /\ increments evs = [].
Proof.
  induction evs as [|e evs IH]; simpl; [auto|].
  intros H. apply andb_prop in H. destruct H as [He H].
  destruct (IH H) as (H1 & H2). unfold increments in *.
  destruct e as [| | | | | | | | | | |[]]; simpl in *; try discriminate; auto.
Qed.

Section Setup.
Context {W : Type} (P : Platform W) (seqBits : Z).

Local Arguments loop : simpl never.

Lemma Start_cases (s : sendWorker) (st : State W) :
  (fst (Start P seqBits s st) = Brk OsExit /\
   heap (snd (Start P seqBits s st)) = heap st /\
   queue (snd (Start P seqBits s st)) = queue st /\
   forallb isSetupEvent (events (Start P seqBits s) st) = true /\
   (existsb isSetupFailure (events (Start P seqBits s) st) = true \/
    (cfgTimestampType (config s) <> HWTIMESTAMP /\
     cfgTimestampType (config s) <> SWTIMESTAMP)))
  \/
  (exists (econn gconn : UDPConn) (eFd gFd : Fd) (setup : list Event) (w : W),
     let st0 := mkState w (heap st) (queue st) (trace st ++ setup) in
     let st1 := snd (loop P seqBits s eFd gFd st0) in
     (cfgTimestampType (config s) = HWTIMESTAMP \/
      cfgTimestampType (config s) = SWTIMESTAMP) /\
     omap isOpen setup = [econn; gconn] /\
     forallb isSetupEvent setup = true /\
     existsb isSetupFailure setup = false /\
     Start P seqBits s st =
       (fst (loop P seqBits s eFd gFd st0),
        mkState (Close P econn (Close P gconn (world st1))) (heap st1) (queue st1)
          (trace st1 ++ [EvClose gconn; EvClose econn]))).
Proof.
  unfold events. unfold_start. paths.
  all: repeat (rewrite <- app_assoc; simpl); rewrite ?drop_app_length.
  all: try (left; repeat split; try exact eq_refl;
            first [ left; exact eq_refl | right; split; congruence ]).
  all: match goal with
       | H : loop _ _ _ _ _ _ = _ |- _ =>
           simpl in H; repeat (rewrite <- app_assoc in H; simpl in H)
       end.
  all: try match goal with
       | H : loop _ _ _ _ _ _ = (Brk OsExit, _) |- _ =>
           exfalso; apply (f_equal fst) in H; revert H; apply range_no_exit
       end.
  all: match goal with
       | H : loop _ _ _ ?e ?g (mkState ?w _ _ (trace _ ++ ?setup)) = _ |- _ =>
           match setup with
           | EvListenUDP _ (Ok ?ec) :: _ :: _ :: EvListenUDP _ (Ok ?gc) :: _ =>
               right; exists ec, gc, e, g, setup, w; simpl; rewrite H; simpl;
               repeat split; try exact eq_refl; auto
           end
       end.
Qed.
End Setup.

Section StartProperties.
Context {W : Type} (P : Platform W) (seqBits : Z).

Lemma loop_job_events (s : sendWorker) (eFd gFd : Fd) (st : State W) :
  forallb isJobEvent (events (loop P seqBits s eFd gFd) st) = true.
Proof.
  rewrite loop_events. apply range_events_ind.
  - reflexivity.
  - intros a b Ha Hb. rewrite forallb_app, Ha, Hb. reflexivity.
  - intros p st'. apply iteration_job_events.
Qed.

(** The events of a run of [Start] that reaches the job loop. *)
Lemma Start_events (s : sendWorker) (st : State W) (econn gconn : UDPConn)
    (eFd gFd : Fd) (setup : list Event) (w : W) :
  let st0 := mkState w (heap st) (queue st) (trace st ++ setup) in
  let st1 := snd (loop P seqBits s eFd gFd st0) in
  Start P seqBits s st =
    (fst (loop P seqBits s eFd gFd st0),
     mkState (Close P econn (Close P gconn (world st1))) (heap st1) (queue st1)
       (trace st1 ++ [EvClose gconn; EvClose econn])) ->
  events (Start P seqBits s) st =
    (setup ++ events (loop P seqBits s eFd gFd) st0) ++ [EvClose gconn; EvClose econn].
Proof.
  intros st0 st1 H. apply events_eq. rewrite H. simpl. subst st1.
  unfold loop at 1. rewrite range_extends. subst st0. simpl.
  rewrite <- !app_assoc. reflexivity.
Qed.

(** C7. When the run of [Start] records a failed bind of the event or
    of the general socket, a failed timestamp enablement (or a failed
    descriptor lookup), or when the configured timestamp mode is neither
    Hardware nor Software, the call ends in the process exit of [Fatalf]
    before the job loop: the channel still holds every job, the store is
    untouched, and the trace holds setup calls only. *)
Theorem fatal_setup_processes_no_job (s : sendWorker) (st : State W) :
  existsb isSetupFailure (events (Start P seqBits s) st) = true \/
  (cfgTimestampType (config s) <> HWTIMESTAMP /\
   cfgTimestampType (config s) <> SWTIMESTAMP) ->
  outcome (fst (Start P seqBits s st)) = Exited /\
  queue (snd (Start P seqBits s st)) = queue st /\
  heap (snd (Start P seqBits s st)) = heap st /\
  forallb isSetupEvent (events (Start P seqBits s) st) = true.
Proof.
  intros Hfail.
  destruct (Start_cases P seqBits s st)
    as [(Hr & Hh & Hq & Hev & _)
       | (econn & gconn & eFd & gFd & setup & w & Hmode & Hopen & Hset & Hnf & HS)].
  - rewrite Hr. auto.
  - exfalso. destruct Hfail as [Hf | [Hhw Hsw]].
    + rewrite (Start_events s st econn gconn eFd gFd setup w HS) in Hf.
      rewrite !existsb_app, Hnf in Hf.
      destruct (job_events_not_setup _ (loop_job_events s eFd gFd
        (mkState w (heap st) (queue st) (trace st ++ setup)))) as (_ & _ & Hl).
      rewrite Hl in Hf. discriminate.
    + destruct Hmode; contradiction.
Qed.

(** C8, as the code has it. Whenever [Start] returns (the channel was
    closed and drained, or a Delay-Response send failed) or unwinds, the
    two sockets it opened are closed by its last two calls, the general
    socket first; when the setup is fatal the process exits and no socket
    is closed by the worker. *)
Theorem sockets_closed_on_return (s : sendWorker) (st : State W) :
  match outcome (fst (Start P seqBits s st)) with
  | Exited => omap isClose (events (Start P seqBits s) st) = []
  | _ =>
      exists (econn gconn : UDPConn) (evs : list Event),
        events (Start P seqBits s) st = evs ++ [EvClose gconn; EvClose econn] /\
        omap isOpen evs = [econn; gconn] /\
        omap isClose evs = []
  end.
Proof.
  destruct (Start_cases P seqBits s st)
    as [(Hr & Hh & Hq & Hev & _)
       | (econn & gconn & eFd & gFd & setup & w & Hmode & Hopen & Hset & Hnf & HS)].
  - rewrite Hr. simpl. apply setup_events_not_job, Hev.
  - pose proof (Start_events s st econn gconn eFd gFd setup w HS) as Hev.
    destruct (job_events_not_setup _ (loop_job_events s eFd gFd
      (mkState w (heap st) (queue st) (trace st ++ setup)))) as (Ho & Hc & _).
    destruct (setup_events_not_job _ Hset) as (Hsc & _).
    assert (Hne : fst (Start P seqBits s st) <> Brk OsExit).
    { rewrite HS. apply range_no_exit. }
    destruct (fst (Start P seqBits s st)) as [[]|[]]; simpl;
      try congruence;
      exists econn, gconn, (setup ++ events (loop P seqBits s eFd gFd)
         (mkState w (heap st) (queue st) (trace st ++ setup)));
      rewrite !omap_app, Hopen, Ho, Hsc, Hc; auto.
Qed.

Lemma Start_followups (s : sendWorker) (st : State W) :
  followupsWithinSyncs (events (Start P seqBits s) st).
Proof.
  destruct (Start_cases P seqBits s st)
    as [(Hr & Hh & Hq & Hev & _)
       | (econn & gconn & eFd & gFd & setup & w & Hmode & Hopen & Hset & Hnf & HS)].
  - apply followupsWithinSyncs_job.
    destruct (setup_events_not_job _ Hev) as [_ ->]. left. reflexivity.
  - rewrite (Start_events s st econn gconn eFd gFd setup w HS).
    repeat apply followupsWithinSyncs_app.
    + apply followupsWithinSyncs_job.
      destruct (setup_events_not_job _ Hset) as [_ ->]. left. reflexivity.
    + rewrite loop_events. apply range_followups.
    + apply followupsWithinSyncs_job. left. reflexivity.
Qed.

End StartProperties.

(** ** The transmit counts *)

(** C10. Across any run of a worker the Follow-Up transmit-count
    increments never exceed the Sync increments: the increments of one job
    are none, one Sync, one Sync then one Follow-Up, one Announce or one
    Delay-Response, so in every prefix of the events of [Start] the
    Follow-Up increments are at most the Sync increments; and a Sync
    increment can stay without its Follow-Up increment, as when the
    retrieval finds no timestamp. *)
Theorem followup_increments_within_sync_increments :
  (forall (W : Type) (P : Platform W) (seqBits : Z) (s : sendWorker)
          (eFd gFd : Fd) (p : loc) (st : State W),
      In (increments (events (iteration P seqBits s eFd gFd p) st)) jobIncrements) /\
  (forall (W : Type) (P : Platform W) (seqBits : Z) (s : sendWorker)
          (st : State W) (pre : list Event),
      pre `prefix_of` events (Start P seqBits s) st ->
      (countTX MessageFollowUp pre <= countTX MessageSync pre)%nat) /\
  (exists (st : State Mock.World),
      (countTX MessageFollowUp
         (events (Start (Mock.platform Mock.noTimestamp) 16
                    (Mock.worker HWTIMESTAMP)) st) <
       countTX MessageSync
         (events (Start (Mock.platform Mock.noTimestamp) 16
                    (Mock.worker HWTIMESTAMP)) st))%nat).
Proof.
  split; [|split].
  - intros. apply iteration_increments.
  - intros W P seqBits s st pre Hpre. exact (Start_followups P seqBits s st pre Hpre).
  - exists (Mock.init {[ 1%nat := Mock.client MessageSync ]} [1%nat]).
    vm_compute. lia.
Qed.

(** ** Concrete runs *)

(** The first scenario of the spec, in Hardware mode: one datagram to
    10.0.0.5:319 on the event descriptor, one to 10.0.0.5:320 on the
    general descriptor, and the client's sequence number goes from 41 to
    42. *)
Example hardware_scenario :
  sends (trace (snd (Start (Mock.platform Mock.happy) 16 (Mock.worker HWTIMESTAMP)
                       (Mock.one MessageSync [1%nat])))) =
    [EvSendto 10 [Byte.x00] {| saAddr := [10; 0; 0; 5]; saPort := 319 |} None;
     EvSendto 11 [Byte.x08] {| saAddr := [10; 0; 0; 5]; saPort := 320 |} None] /\
  sequenceID <$>
    heap (snd (Start (Mock.platform Mock.happy) 16 (Mock.worker HWTIMESTAMP)
                 (Mock.one MessageSync [1%nat]))) !! 1%nat = Some 42.
Proof. vm_compute. split; reflexivity. Qed.

(** C2 on the Software-mode scenario of the spec: the retrieved timestamp
    is 1000 and the offset 37 ms. *)
Lemma followup_origin_timestamp_witness :
  exists (sbuf fbuf : list Byte.byte) (txTS : Time) (attempts : Z)
         (w1 w2 : Mock.World) (followup : Packet),
    BytesTo (Mock.platform Mock.happy) (syncPacket (Mock.client MessageSync)) = Ok sbuf /\
    Sendto (Mock.platform Mock.happy) 10 sbuf (eclisa (Mock.client MessageSync))
      (world (Mock.one MessageSync [])) = (None, w1) /\
    ReadTXtimestampBuf (Mock.platform Mock.happy) 10 w1 = ((txTS, attempts, None), w2) /\
    List.filter isRetrieval
      (events (iteration (Mock.platform Mock.happy) 16 (Mock.worker SWTIMESTAMP) 10 11 1%nat)
         (Mock.one MessageSync [])) =
      [EvReadTXtimestampBuf 10 txTS attempts None] /\
    BytesTo (Mock.platform Mock.happy) followup = Ok fbuf /\
    sends
      (events (iteration (Mock.platform Mock.happy) 16 (Mock.worker SWTIMESTAMP) 10 11 1%nat)
         (Mock.one MessageSync [])) =
      [EvSendto 10 sbuf (eclisa (Mock.client MessageSync)) None;
       EvSendto 11 fbuf (gclisa (Mock.client MessageSync)) None] /\
    packetType followup = MessageFollowUp /\
    packetOriginTimestamp followup =
      Some (if decide (cfgTimestampType (config (Mock.worker SWTIMESTAMP)) = SWTIMESTAMP)
            then txTS + UTCOffset (config (Mock.worker SWTIMESTAMP)) else txTS).
Proof.
  apply (followup_origin_timestamp (Mock.platform Mock.happy) 16
           (Mock.worker SWTIMESTAMP) 10 11 1%nat (Mock.client MessageSync)
           (Mock.one MessageSync [])).
  - vm_compute. reflexivity.
  - reflexivity.
  - right. reflexivity.
  - vm_compute. reflexivity.
Defined.

(** C5 on the Hardware-mode scenario of the spec. *)
Lemma sync_then_followup_witness :
  exists (sbuf fbuf : list Byte.byte) (sync followup : Packet),
    BytesTo (Mock.platform Mock.happy) sync = Ok sbuf /\
    BytesTo (Mock.platform Mock.happy) followup = Ok fbuf /\
    sends
      (events (iteration (Mock.platform Mock.happy) 16 (Mock.worker HWTIMESTAMP) 10 11 1%nat)
         (Mock.one MessageSync [])) =
      [EvSendto 10 sbuf (eclisa (Mock.client MessageSync)) None;
       EvSendto 11 fbuf (gclisa (Mock.client MessageSync)) None] /\
    packetType sync = MessageSync /\
    packetType followup = MessageFollowUp /\
    packetSequenceID sync = Some (sequenceID (Mock.client MessageSync)) /\
    packetSequenceID followup = packetSequenceID sync.
Proof.
  apply (sync_then_followup (Mock.platform Mock.happy) 16
           (Mock.worker HWTIMESTAMP) 10 11 1%nat (Mock.client MessageSync)
           (Mock.one MessageSync [])).
  - vm_compute. reflexivity.
  - reflexivity.
  - vm_compute. reflexivity.
Defined.

(** C3 on a failing Sync send and on a retrieval that finds nothing. *)
Lemma no_followup_after_sync_failure_witness :
  sends
    (events (iteration (Mock.platform Mock.eventSendFails) 16 (Mock.worker HWTIMESTAMP)
               10 11 1%nat) (Mock.one MessageSync [])) =
    [EvSendto 10 [Byte.x00] (eclisa (Mock.client MessageSync)) (Some "sendto")] /\
  sends
    (events (iteration (Mock.platform Mock.noTimestamp) 16 (Mock.worker HWTIMESTAMP)
               10 11 1%nat) (Mock.one MessageSync [])) =
    [EvSendto 10 [Byte.x00] (eclisa (Mock.client MessageSync)) None] /\
  List.filter isAttemptReport
    (events (iteration (Mock.platform Mock.noTimestamp) 16 (Mock.worker HWTIMESTAMP)
               10 11 1%nat) (Mock.one MessageSync [])) =
    [EvSetMaxTXTSAttempts 7 3].
Proof.
  split.
  - apply (proj1 (no_followup_after_sync_failure (Mock.platform Mock.eventSendFails) 16
             (Mock.worker HWTIMESTAMP) 10 11 1%nat (Mock.client MessageSync)
             (Mock.one MessageSync []) [Byte.x00]
             ltac:(vm_compute; reflexivity) eq_refl eq_refl)
           "sendto" {| Mock.opened := 0; Mock.reads := 0 |}).
    vm_compute. reflexivity.
  - apply (proj2 (no_followup_after_sync_failure (Mock.platform Mock.noTimestamp) 16
             (Mock.worker HWTIMESTAMP) 10 11 1%nat (Mock.client MessageSync)
             (Mock.one MessageSync []) [Byte.x00]
             ltac:(vm_compute; reflexivity) eq_refl eq_refl)
           {| Mock.opened := 0; Mock.reads := 0 |}
           {| Mock.opened := 0; Mock.reads := 3 |} 0 3 "no TX timestamp found").
    + vm_compute. reflexivity.
    + vm_compute. reflexivity.
Defined.

(** C6 on a job whose type is Follow-Up, which the worker does not serve. *)
Lemma unknown_type_skipped_witness :
  iteration (Mock.platform Mock.happy) 16 (Mock.worker HWTIMESTAMP) 10 11 1%nat
    (Mock.one MessageFollowUp []) =
  (Brk Continue,
   mkState (world (Mock.one MessageFollowUp [])) (heap (Mock.one MessageFollowUp []))
     (queue (Mock.one MessageFollowUp []))
     (trace (Mock.one MessageFollowUp []) ++
      [EvLog DebugLevel "Processing client: %s";
       EvLog ErrorLevel "Unknown subscription type: %v"])).
Proof.
  apply (unknown_type_skipped (Mock.platform Mock.happy) 16 (Mock.worker HWTIMESTAMP)
           10 11 1%nat (Mock.client MessageFollowUp) (Mock.one MessageFollowUp [])).
  - vm_compute. reflexivity.
  - discriminate.
  - discriminate.
  - discriminate.
Defined.

(** C4 on a Delay-Response job whose send fails, with a second job
    behind it: the loop returns and the second job stays in the channel;
    and on a Sync job whose send fails: the loop goes on with the second
    job. *)
Lemma send_failure_policy_witness :
  loop (Mock.platform Mock.generalSendFails) 16 (Mock.worker HWTIMESTAMP) 10 11
    (Mock.one MessageDelayResp [1%nat; 1%nat]) =
  (Brk Return,
   mkState {| Mock.opened := 0; Mock.reads := 0 |}
     (heap (Mock.one MessageDelayResp [1%nat; 1%nat])) [1%nat]
     (trace (Mock.one MessageDelayResp [1%nat; 1%nat]) ++
      [EvLog DebugLevel "Processing client: %s";
       EvLog DebugLevel "Sending delay response";
       EvLog TraceLevel "Sending delay response %+v to %s from %d";
       EvSendto 11 [Byte.x09; Byte.x2a] (gclisa (Mock.client MessageDelayResp))
         (Some "sendto");
       EvLog ErrorLevel "Failed to send the delay response: %v"])) /\
  loop (Mock.platform Mock.eventSendFails) 16 (Mock.worker HWTIMESTAMP) 10 11
    (Mock.one MessageSync [1%nat; 1%nat]) =
  loop (Mock.platform Mock.eventSendFails) 16 (Mock.worker HWTIMESTAMP) 10 11
    (mkState {| Mock.opened := 0; Mock.reads := 0 |}
       (heap (Mock.one MessageSync [1%nat; 1%nat])) [1%nat]
       (trace (Mock.one MessageSync [1%nat; 1%nat]) ++
        [EvLog DebugLevel "Processing client: %s";
         EvLog DebugLevel "Sending sync";
         EvLog TraceLevel "Sending sync %+v to %s from %d";
         EvSendto 10 [Byte.x00] (eclisa (Mock.client MessageSync)) (Some "sendto");
         EvLog ErrorLevel "Failed to send the sync packet: %v"])).
Proof.
  split.
  2: { apply (proj1 (proj2 (send_failure_policy (Mock.platform Mock.eventSendFails) 16
           (Mock.worker HWTIMESTAMP) 10 11 1%nat [1%nat] (Mock.client MessageSync)
           (Mock.one MessageSync [1%nat; 1%nat]) [Byte.x00] "sendto"
           {| Mock.opened := 0; Mock.reads := 0 |}
           eq_refl ltac:(vm_compute; reflexivity)))).
       - reflexivity.
       - vm_compute. reflexivity.
       - vm_compute. reflexivity. }
  apply (proj1 (send_failure_policy (Mock.platform Mock.generalSendFails) 16
           (Mock.worker HWTIMESTAMP) 10 11 1%nat [1%nat] (Mock.client MessageDelayResp)
           (Mock.one MessageDelayResp [1%nat; 1%nat]) [Byte.x09; Byte.x2a] "sendto"
           {| Mock.opened := 0; Mock.reads := 0 |}
           eq_refl ltac:(vm_compute; reflexivity))).
  - reflexivity.
  - vm_compute. reflexivity.
  - vm_compute. reflexivity.
Defined.

(** C7 on a run whose timestamp enablement fails, with one job queued. *)
Lemma fatal_setup_processes_no_job_witness :
  outcome (fst (Start (Mock.platform Mock.enableFailure) 16 (Mock.worker HWTIMESTAMP)
                  (Mock.one MessageSync [1%nat]))) = Exited /\
  queue (snd (Start (Mock.platform Mock.enableFailure) 16 (Mock.worker HWTIMESTAMP)
                (Mock.one MessageSync [1%nat]))) = [1%nat] /\
  heap (snd (Start (Mock.platform Mock.enableFailure) 16 (Mock.worker HWTIMESTAMP)
               (Mock.one MessageSync [1%nat]))) = heap (Mock.one MessageSync [1%nat]) /\
  forallb isSetupEvent
    (events (Start (Mock.platform Mock.enableFailure) 16 (Mock.worker HWTIMESTAMP))
       (Mock.one MessageSync [1%nat])) = true.
Proof.
  apply (fatal_setup_processes_no_job (Mock.platform Mock.enableFailure) 16
           (Mock.worker HWTIMESTAMP) (Mock.one MessageSync [1%nat])).
  left. vm_compute. reflexivity.
Defined.

(** C10 on a prefix of the run of the Hardware-mode scenario. *)
Lemma followup_increments_witness :
  (countTX MessageFollowUp
     (take 12 (events (Start (Mock.platform Mock.happy) 16 (Mock.worker HWTIMESTAMP))
                 (Mock.one MessageSync [1%nat]))) <=
   countTX MessageSync
     (take 12 (events (Start (Mock.platform Mock.happy) 16 (Mock.worker HWTIMESTAMP))
                 (Mock.one MessageSync [1%nat]))))%nat.
Proof.
  apply (proj1 (proj2 followup_increments_within_sync_increments)
           Mock.World (Mock.platform Mock.happy) 16 (Mock.worker HWTIMESTAMP)
           (Mock.one MessageSync [1%nat])).
  apply prefix_take.
Defined.

(** ** Where the code departs from the wording *)


(** C8 as worded fails when the timestamp enablement fails: the event
    socket was opened, the process exits, and no [Close] is ever called. *)
Lemma fatal_setup_closes_nothing :
  ~ (forall c : UDPConn,
       In c (omap isOpen
               (events (Start (Mock.platform Mock.enableFailure) 16
                          (Mock.worker HWTIMESTAMP)) (Mock.one MessageSync [1%nat]))) ->
       In c (omap isClose
               (events (Start (Mock.platform Mock.enableFailure) 16
                          (Mock.worker HWTIMESTAMP)) (Mock.one MessageSync [1%nat])))).
Proof.
  intros H. specialize (H 0). vm_compute in H. apply H. left. reflexivity.
Defined.

Section MoreJobs.
Context {W : Type} (P : Platform W) (seqBits : Z).
Context (s : sendWorker) (eFd gFd : Fd).

(** ** Further properties of one job *)

(** X1. An Announce job whose build and send succeed sends one datagram,
    the serialized Announce, on the general descriptor to the client's
    general address, counts one Announce, advances the client's sequence
    number and reports the load and the number of jobs left in the
    channel. *)
Theorem announce_job_completed (p : loc) (c : SubscriptionClient) (st : State W)
    (buf : list Byte.byte) (w1 : W) :
  heap st !! p = Some c ->
  subscriptionType c = MessageAnnounce ->
  BytesTo P (announcePacket c) = Ok buf ->
  Sendto P gFd buf (gclisa c) (world st) = (None, w1) ->
  iteration P seqBits s eFd gFd p st =
    (Val tt,
     mkState w1 (<[p := advance seqBits c]> (heap st)) (queue st)
       (trace st ++ [EvLog DebugLevel "Processing client: %s";
                     EvLog DebugLevel "Sending announce";
                     EvLog TraceLevel "Sending announce %+v to %s from %d";
                     EvSendto gFd buf (gclisa c) None;
                     EvIncTX MessageAnnounce;
                     EvSetMaxWorkerLoad (id s) (load s);
                     EvSetMaxWorkerQueue (id s) (Z.of_nat (length (queue st)))])).
Proof.
  intros Hc Ht Hb Hs. unfold_worker. rewrite Hc. simpl. rewrite Ht, Hb. simpl.
  rewrite Hs. simpl. rewrite ?Hc, ?Ht. simpl.
  repeat (rewrite <- app_assoc; simpl). reflexivity.
Qed.

(** X2. A Delay-Response job whose build and send succeed sends the
    client's precomputed Delay-Response on the general descriptor to the
    general address, counts one Delay-Response, and advances the client's
    sequence number like the other jobs, although the payload does not
    depend on it. *)
Theorem delay_resp_job_completed (p : loc) (c : SubscriptionClient) (st : State W)
    (buf : list Byte.byte) (w1 : W) :
  heap st !! p = Some c ->
  subscriptionType c = MessageDelayResp ->
  BytesTo P (DelayRespPacket (delayRespP c)) = Ok buf ->
  Sendto P gFd buf (gclisa c) (world st) = (None, w1) ->
  iteration P seqBits s eFd gFd p st =
    (Val tt,
     mkState w1 (<[p := advance seqBits c]> (heap st)) (queue st)
       (trace st ++ [EvLog DebugLevel "Processing client: %s";
                     EvLog DebugLevel "Sending delay response";
                     EvLog TraceLevel "Sending delay response %+v to %s from %d";
                     EvSendto gFd buf (gclisa c) None;
                     EvIncTX MessageDelayResp;
                     EvSetMaxWorkerLoad (id s) (load s);
                     EvSetMaxWorkerQueue (id s) (Z.of_nat (length (queue st)))])).
Proof.
  intros Hc Ht Hb Hs. unfold_worker. rewrite Hc. simpl. rewrite Ht, Hb. simpl.
  rewrite Hs. simpl. rewrite ?Hc, ?Ht. simpl.
  repeat (rewrite <- app_assoc; simpl). reflexivity.
Qed.

(** X3. When the first serialization of a job fails (the Sync, the
    Announce or the Delay-Response), the job logs one error line and is
    left by [continue]: nothing is sent or counted, the world and the store
    are unchanged. This holds for Delay-Response too: only its failed send
    ends the loop, not its failed build. *)
Theorem build_failure_sends_nothing (p : loc) (c : SubscriptionClient) (st : State W)
    (pkt : Packet) (e : error) :
  heap st !! p = Some c ->
  firstPacket c = Some pkt ->
  BytesTo P pkt = Err e ->
  exists format : string,
    iteration P seqBits s eFd gFd p st =
      (Brk Continue,
       mkState (world st) (heap st) (queue st)
         (trace st ++ [EvLog DebugLevel "Processing client: %s";
                       EvLog ErrorLevel format])).
Proof.
  intros Hc Hf Hb. unfold firstPacket in Hf. unfold_worker. rewrite Hc. simpl.
  destruct (subscriptionType c); simplify_eq; rewrite Hb; simpl;
    eexists; rewrite <- app_assoc; reflexivity.
Qed.


(** The accounting of one job. *)
Lemma iteration_accounting (p : loc) (st : State W) :
  length (increments (events (iteration P seqBits s eFd gFd p) st)) =
    length (List.filter isSuccessfulSend (events (iteration P seqBits s eFd gFd p) st)) /\
  omap reportedAttempts (events (iteration P seqBits s eFd gFd p) st) =
    List.map (pair (id s))
      (omap retrievedAttempts (events (iteration P seqBits s eFd gFd p) st)) /\
  length (omap retrievedAttempts (events (iteration P seqBits s eFd gFd p) st)) =
    countTX MessageSync (events (iteration P seqBits s eFd gFd p) st).
Proof.
  run_job; repeat split; try exact eq_refl.
  all: unfold countTX; simpl;
    repeat match goal with H : subscriptionType _ = _ |- _ => rewrite H end;
    exact eq_refl.
Qed.

(** X5. No send is retried: a job makes at most two sends, and a send
    that fails is the last send of its job, which then does not reach its
    bookkeeping. *)
Theorem no_send_retried (p : loc) (st : State W) :
  (length (sends (events (iteration P seqBits s eFd gFd p) st)) <= 2)%nat /\
  (forall (pre post : list Event) (f : Event),
      sends (events (iteration P seqBits s eFd gFd p) st) = pre ++ f :: post ->
      isFailedSend f = true ->
      post = [] /\ fst (iteration P seqBits s eFd gFd p st) <> Val tt).
Proof.
  run_job; (split; [simpl; lia|]); intros pre post f Heq Hf.
  all: destruct pre as [|? [|? [|? ?]]]; simpl in Heq; simplify_eq;
    simpl in Hf; try discriminate.
  all: split; [exact eq_refl | discriminate].
Qed.

(** A pass ends by [return] only after a failed Delay-Response send. *)
Lemma iteration_returns (p : loc) (st : State W) :
  fst (iteration P seqBits s eFd gFd p st) = Brk Return ->
  exists pre buf to e,
    events (iteration P seqBits s eFd gFd p) st =
      pre ++ [EvSendto gFd buf to (Some e);
              EvLog ErrorLevel "Failed to send the delay response: %v"].
Proof.
  run_job; intros Hret; try discriminate.
  match goal with
  | |- exists pre buf to e, ?l = _ =>
      exists (take (length l - 2) l); simpl; do 3 eexists; exact eq_refl
  end.
Qed.

End MoreJobs.

(** ** More on the job loop *)

Lemma accounted_app (w : Z) (a b : list Event) :
  accounted w a -> accounted w b -> accounted w (a ++ b).
Proof.
  unfold accounted. intros (A1 & A2 & A3) (B1 & B2 & B3).
  unfold increments in *.
  rewrite countTX_app, !omap_app, List.filter_app, List.map_app, !length_app.
  rewrite A1, A2, A3, B1, B2, B3. auto.
Qed.

Lemma accounted_setup (w : Z) (evs : list Event) :
  forallb isSetupEvent evs = true -> accounted w evs.
Proof.
  unfold accounted, countTX, increments.
  induction evs as [|e evs IH]; simpl; [auto|].
  intros H. apply andb_prop in H. destruct H as [He H].
  destruct (IH H) as (H1 & H2 & H3).
  destruct e as [| | | | | | | | | | |[]]; simpl in *; try discriminate; auto.
Qed.

Lemma job_events_no_fatal (evs : list Event) :
  forallb isJobEvent evs = true -> existsb isFatalLog evs = false.
Proof.
  induction evs as [|e evs IH]; simpl; [auto|].
  intros H. apply andb_prop in H. destruct H as [He H]. rewrite (IH H).
  destruct e as [| | | | | | | | | | |[]]; simpl in *; try discriminate; auto.
Qed.

Section MoreLoop.
Context {W : Type} (P : Platform W) (seqBits : Z).
Context (s : sendWorker) (eFd gFd : Fd).

Lemma range_accounted (q : list loc) (st : State W) :
  accounted (id s) (events (range P seqBits s eFd gFd q) st).
Proof.
  apply range_events_ind.
  - repeat split.
  - apply accounted_app.
  - intros p st'. apply iteration_accounting.
Qed.

(** The loop writes nothing but sequence numbers. *)
Lemma range_fixed (q : list loc) (st : State W) (p : loc) :
  fixedPart <$> heap (snd (range P seqBits s eFd gFd q st)) !! p =
  fixedPart <$> heap st !! p.
Proof.
  revert st. induction q as [|p0 rest IH]; intros st; [reflexivity|].
  rewrite range_cons.
  pose proof (iteration_heap P seqBits s eFd gFd p0 (received st rest)) as Hh.
  destruct (iteration P seqBits s eFd gFd p0 (received st rest)) as [[[]|e] st1];
    simpl in Hh.
  - destruct Hh as (c & Hc & Hh). rewrite IH, Hh.
    destruct (Nat.eq_dec p0 p) as [->|Hne].
    + rewrite lookup_insert_eq, Hc. reflexivity.
    + rewrite lookup_insert_ne by assumption. reflexivity.
  - destruct e; simpl; rewrite ?IH, Hh; reflexivity.
Qed.



Lemma range_returns (q : list loc) (st : State W) :
  fst (range P seqBits s eFd gFd q st) = Brk Return ->
  exists pre buf to e,
    events (range P seqBits s eFd gFd q) st =
      pre ++ [EvSendto gFd buf to (Some e);
              EvLog ErrorLevel "Failed to send the delay response: %v"].
Proof.
  revert st. induction q as [|p rest IH]; intros st; [discriminate|].
  rewrite range_events_cons, range_cons.
  pose proof (iteration_returns P seqBits s eFd gFd p (received st rest)) as Hr.
  destruct (iteration P seqBits s eFd gFd p (received st rest)) as [[[]|e] st1];
    simpl in *.
  2: destruct e.
  all: intros H; try discriminate.
  1,2: destruct (IH st1 H) as (pre & buf & to & e & ->);
       eexists (_ ++ pre), buf, to, e; rewrite app_assoc; reflexivity.
  destruct (Hr eq_refl) as (pre & buf & to & e & ->).
  exists pre, buf, to, e. rewrite app_nil_r. reflexivity.
Qed.

(** X10. The loop ends by [return] only after a failed Delay-Response
    send: its last two events are then a failed send on the general
    descriptor and the error line of the Delay-Response branch. *)
Theorem loop_returns_only_on_delay_resp_failure (st : State W) :
  fst (loop P seqBits s eFd gFd st) = Brk Return ->
  exists pre buf to e,
    events (loop P seqBits s eFd gFd) st =
      pre ++ [EvSendto gFd buf to (Some e);
              EvLog ErrorLevel "Failed to send the delay response: %v"].
Proof. apply range_returns. Qed.

(** X11. A job that is the nil pointer: the dereference panics before
    anything is logged or sent, and the jobs behind it stay in the
    channel. *)
Theorem nil_job_panics (p : loc) (rest : list loc) (st : State W) :
  queue st = p :: rest ->
  heap st !! p = None ->
  loop P seqBits s eFd gFd st =
    (Brk Panic, mkState (world st) (heap st) rest (trace st)).
Proof.
  intros Hq Hn. unfold loop. rewrite Hq, range_cons.
  unfold iteration, deref, bind, received. simpl. rewrite Hn. reflexivity.
Qed.

End MoreLoop.

(** ** More on [Start] *)

Section MoreStart.
Context {W : Type} (P : Platform W) (seqBits : Z).

Local Arguments loop : simpl never.

(** The two ways a call of [Start] goes: a fatal line is its last event
    and the process exits, or the setup made exactly its five calls and
    the loop ran on the two descriptors they gave. *)
Lemma Start_shape (s : sendWorker) (st : State W) :
  (fst (Start P seqBits s st) = Brk OsExit /\
   exists pre format,
     events (Start P seqBits s) st = pre ++ [EvLog FatalLevel format] /\
     existsb isFatalLog pre = false)
  \/
  (exists (econn gconn : UDPConn) (eFd gFd : Fd) (w : W),
     let st0 := mkState w (heap st) (queue st)
                  (trace st ++ setupCalls s econn gconn eFd gFd) in
     let st1 := snd (loop P seqBits s eFd gFd st0) in
     (cfgTimestampType (config s) = HWTIMESTAMP \/
      cfgTimestampType (config s) = SWTIMESTAMP) /\
     Start P seqBits s st =
       (fst (loop P seqBits s eFd gFd st0),
        mkState (Close P econn (Close P gconn (world st1))) (heap st1) (queue st1)
          (trace st1 ++ [EvClose gconn; EvClose econn]))).
Proof.
  unfold events. unfold_start. paths.
  all: repeat (rewrite <- app_assoc; simpl); rewrite ?drop_app_length.
  all: try (left; split; [exact eq_refl|];
            match goal with
            | |- exists pre format, ?l = _ /\ _ =>
                exists (take (length l - 1) l); simpl; eexists;
                split; exact eq_refl
            end).
  all: match goal with
       | H : loop _ _ _ _ _ _ = _ |- _ =>
           simpl in H; repeat (rewrite <- app_assoc in H; simpl in H)
       end.
  all: try match goal with
       | H : loop _ _ _ _ _ _ = (Brk OsExit, _) |- _ =>
           exfalso; apply (f_equal fst) in H; revert H; apply range_no_exit
       end.
  all: match goal with
       | H : loop _ _ _ ?e ?g (mkState ?w _ _ (trace _ ++ ?setup)) = _,
         Hm : cfgTimestampType _ = _ |- _ =>
           match setup with
           | EvListenUDP _ (Ok ?ec) :: _ :: _ :: EvListenUDP _ (Ok ?gc) :: _ =>
               right; exists ec, gc, e, g, w; unfold setupCalls; simpl;
               rewrite Hm, H; simpl; split; [auto | exact eq_refl]
           end
       end.
Qed.

Lemma setupCalls_are_setup (s : sendWorker) (econn gconn : UDPConn) (eFd gFd : Fd) :
  forallb isSetupEvent (setupCalls s econn gconn eFd gFd) = true /\
  existsb isFatalLog (setupCalls s econn gconn eFd gFd) = false.
Proof.
  unfold setupCalls. destruct (cfgTimestampType (config s)); split; reflexivity.
Qed.

(** X12. Whenever [Start] does not end in the exit of the process, it has
    bound the event socket on the configured address, taken its
    descriptor, enabled on it the timestamps of the configured mode (with
    the configured interface in Hardware mode), bound the general socket on
    the same address and taken its descriptor, in this order; it has then
    run the job loop on these two descriptors and nothing else, and closed
    the general and the event socket. *)
Theorem Start_runs_loop_on_its_sockets (s : sendWorker) (st : State W) :
  outcome (fst (Start P seqBits s st)) <> Exited ->
  exists (econn gconn : UDPConn) (eFd gFd : Fd) (w : W),
    let st0 := mkState w (heap st) (queue st)
                 (trace st ++ setupCalls s econn gconn eFd gFd) in
    (cfgTimestampType (config s) = HWTIMESTAMP \/
     cfgTimestampType (config s) = SWTIMESTAMP) /\
    events (Start P seqBits s) st =
      (setupCalls s econn gconn eFd gFd ++ events (loop P seqBits s eFd gFd) st0)
      ++ [EvClose gconn; EvClose econn] /\
    fst (Start P seqBits s st) = fst (loop P seqBits s eFd gFd st0) /\
    heap (snd (Start P seqBits s st)) = heap (snd (loop P seqBits s eFd gFd st0)) /\
    queue (snd (Start P seqBits s st)) = queue (snd (loop P seqBits s eFd gFd st0)).
Proof.
  intros Hne.
  destruct (Start_shape s st)
    as [(Hr & _) | (econn & gconn & eFd & gFd & w & Hmode & HS)].
  - rewrite Hr in Hne. contradiction.
  - exists econn, gconn, eFd, gFd, w. simpl. split; [exact Hmode|].
    split; [exact (Start_events P seqBits s st econn gconn eFd gFd _ w HS)|].
    rewrite HS. auto.
Qed.

(** X13. A worker whose channel is closed with no job in it: when the
    setup succeeds, [Start] makes its five setup calls, closes the two
    sockets and returns; it sends nothing, reports nothing and leaves the
    store as it was. *)
Theorem empty_queue_run (s : sendWorker) (st : State W) :
  queue st = [] ->
  outcome (fst (Start P seqBits s st)) <> Exited ->
  fst (Start P seqBits s st) = Val tt /\
  heap (snd (Start P seqBits s st)) = heap st /\
  exists (econn gconn : UDPConn) (eFd gFd : Fd),
    events (Start P seqBits s) st =
      setupCalls s econn gconn eFd gFd ++ [EvClose gconn; EvClose econn].
Proof.
  intros Hq Hne.
  destruct (Start_shape s st)
    as [(Hr & _) | (econn & gconn & eFd & gFd & w & Hmode & HS)].
  - rewrite Hr in Hne. contradiction.
  - pose proof (Start_events P seqBits s st econn gconn eFd gFd _ w HS) as Hev.
    assert (Hl : loop P seqBits s eFd gFd
                   (mkState w (heap st) (queue st)
                      (trace st ++ setupCalls s econn gconn eFd gFd)) =
                 (Val tt, mkState w (heap st) (queue st)
                            (trace st ++ setupCalls s econn gconn eFd gFd))).
    { unfold loop. cbn [queue]. rewrite Hq. reflexivity. }
    unfold events at 2 in Hev. rewrite Hl in Hev, HS. cbn [snd trace] in Hev.
    rewrite drop_all, app_nil_r in Hev. rewrite HS. cbn [fst snd heap].
    repeat split. exists econn, gconn, eFd, gFd. exact Hev.
Qed.

(** X14. [Start] ends in the exit of the process exactly when it has
    logged a fatal line, and that line is then its last event: nothing is
    called after [Fatalf], and no run that goes on has logged one. *)
Theorem exit_iff_fatal_log (s : sendWorker) (st : State W) :
  (outcome (fst (Start P seqBits s st)) = Exited <->
   existsb isFatalLog (events (Start P seqBits s) st) = true) /\
  (outcome (fst (Start P seqBits s st)) = Exited ->
   exists pre format,
     events (Start P seqBits s) st = pre ++ [EvLog FatalLevel format] /\
     existsb isFatalLog pre = false).
Proof.
  destruct (Start_shape s st)
    as [(Hr & pre & format & Hev & Hpre)
       | (econn & gconn & eFd & gFd & w & Hmode & HS)].
  - rewrite Hr, Hev. simpl. split; [|intros _; eauto].
    rewrite existsb_app. simpl. rewrite orb_true_r. split; reflexivity.
  - pose proof (Start_events P seqBits s st econn gconn eFd gFd _ w HS) as Hev.
    assert (Hne : fst (Start P seqBits s st) <> Brk OsExit).
    { rewrite HS. apply range_no_exit. }
    assert (Hout : outcome (fst (Start P seqBits s st)) <> Exited).
    { destruct (fst (Start P seqBits s st)) as [[]|[]]; simpl; congruence. }
    assert (Hnf : existsb isFatalLog (events (Start P seqBits s) st) = false).
    { rewrite Hev, !existsb_app.
      destruct (setupCalls_are_setup s econn gconn eFd gFd) as [_ ->].
      rewrite (job_events_no_fatal _ (loop_job_events P seqBits s eFd gFd _)).
      reflexivity. }
    rewrite Hnf. split; [split; [contradiction | discriminate] | contradiction].
Qed.

Lemma Start_accounted (s : sendWorker) (st : State W) :
  accounted (id s) (events (Start P seqBits s) st).
Proof.
  destruct (Start_cases P seqBits s st)
    as [(Hr & Hh & Hq & Hev & _)
       | (econn & gconn & eFd & gFd & setup & w & Hmode & Hopen & Hset & Hnf & HS)].
  - apply accounted_setup, Hev.
  - rewrite (Start_events P seqBits s st econn gconn eFd gFd setup w HS).
    repeat apply accounted_app.
    + apply accounted_setup, Hset.
    + rewrite loop_events. apply range_accounted.
    + repeat split.
Qed.

(** X6. In every run of [Start] the transmit count is incremented once
    for each send that succeeded and for nothing else: a failed send is not
    counted and no count is made without a send. *)
Theorem transmit_counts_are_successful_sends (s : sendWorker) (st : State W) :
  length (increments (events (Start P seqBits s) st)) =
  length (List.filter isSuccessfulSend (events (Start P seqBits s) st)).
Proof. apply Start_accounted. Qed.

(** X7. In every run of [Start] the transmit timestamp is read once for
    each counted Sync and never otherwise, and after each read, failed or
    not, the attempt count it returned is reported under the worker's own
    id: the reports are the returned counts, in order. *)
Theorem attempt_reports_follow_retrievals (s : sendWorker) (st : State W) :
  omap reportedAttempts (events (Start P seqBits s) st) =
    List.map (pair (id s)) (omap retrievedAttempts (events (Start P seqBits s) st)) /\
  length (omap retrievedAttempts (events (Start P seqBits s) st)) =
    countTX MessageSync (events (Start P seqBits s) st).
Proof. apply Start_accounted. Qed.

(** X8. [Start] writes nothing in a client but its sequence number: for
    every location of the store, the addresses, the subscription type and
    the Delay-Response of the client are after the run what they were
    before, and no client is added or removed. *)
Theorem worker_writes_only_sequence_numbers (s : sendWorker) (st : State W) (p : loc) :
  fixedPart <$> heap (snd (Start P seqBits s st)) !! p = fixedPart <$> heap st !! p.
Proof.
  destruct (Start_cases P seqBits s st)
    as [(Hr & Hh & Hq & Hev & _)
       | (econn & gconn & eFd & gFd & setup & w & Hmode & Hopen & Hset & Hnf & HS)].
  - rewrite Hh. reflexivity.
  - rewrite HS. simpl. unfold loop. rewrite range_fixed. reflexivity.
Qed.

End MoreStart.

(** ** Concrete runs of the further properties *)

Lemma announce_job_completed_witness :
  iteration (Mock.platform Mock.happy) 16 (Mock.worker HWTIMESTAMP) 10 11 1%nat
    (Mock.one MessageAnnounce [1%nat]) =
  (Val tt,
   mkState {| Mock.opened := 0; Mock.reads := 0 |}
     (<[1%nat := advance 16 (Mock.client MessageAnnounce)]>
        (heap (Mock.one MessageAnnounce [1%nat])))
     (queue (Mock.one MessageAnnounce [1%nat]))
     (trace (Mock.one MessageAnnounce [1%nat]) ++
      [EvLog DebugLevel "Processing client: %s";
       EvLog DebugLevel "Sending announce";
       EvLog TraceLevel "Sending announce %+v to %s from %d";
       EvSendto 11 [Byte.x0b] (gclisa (Mock.client MessageAnnounce)) None;
       EvIncTX MessageAnnounce;
       EvSetMaxWorkerLoad (id (Mock.worker HWTIMESTAMP)) (load (Mock.worker HWTIMESTAMP));
       EvSetMaxWorkerQueue (id (Mock.worker HWTIMESTAMP))
         (Z.of_nat (length (queue (Mock.one MessageAnnounce [1%nat]))))])).
Proof.
  apply (announce_job_completed (Mock.platform Mock.happy) 16 (Mock.worker HWTIMESTAMP)
           10 11 1%nat (Mock.client MessageAnnounce) (Mock.one MessageAnnounce [1%nat])
           [Byte.x0b] {| Mock.opened := 0; Mock.reads := 0 |}).
  - vm_compute. reflexivity.
  - reflexivity.
  - reflexivity.
  - reflexivity.
Defined.

Lemma delay_resp_job_completed_witness :
  iteration (Mock.platform Mock.happy) 16 (Mock.worker HWTIMESTAMP) 10 11 1%nat
    (Mock.one MessageDelayResp []) =
  (Val tt,
   mkState {| Mock.opened := 0; Mock.reads := 0 |}
     (<[1%nat := advance 16 (Mock.client MessageDelayResp)]>
        (heap (Mock.one MessageDelayResp [])))
     (queue (Mock.one MessageDelayResp []))
     (trace (Mock.one MessageDelayResp []) ++
      [EvLog DebugLevel "Processing client: %s";
       EvLog DebugLevel "Sending delay response";
       EvLog TraceLevel "Sending delay response %+v to %s from %d";
       EvSendto 11 [Byte.x09; Byte.x2a] (gclisa (Mock.client MessageDelayResp)) None;
       EvIncTX MessageDelayResp;
       EvSetMaxWorkerLoad (id (Mock.worker HWTIMESTAMP)) (load (Mock.worker HWTIMESTAMP));
       EvSetMaxWorkerQueue (id (Mock.worker HWTIMESTAMP))
         (Z.of_nat (length (queue (Mock.one MessageDelayResp []))))])).
Proof.
  apply (delay_resp_job_completed (Mock.platform Mock.happy) 16 (Mock.worker HWTIMESTAMP)
           10 11 1%nat (Mock.client MessageDelayResp) (Mock.one MessageDelayResp [])
           [Byte.x09; Byte.x2a] {| Mock.opened := 0; Mock.reads := 0 |}).
  - vm_compute. reflexivity.
  - reflexivity.
  - reflexivity.
  - reflexivity.
Defined.

Lemma build_failure_sends_nothing_witness :
  exists format : string,
    iteration (Mock.platform Mock.marshalFailure) 16 (Mock.worker HWTIMESTAMP) 10 11 1%nat
      (Mock.one MessageDelayResp []) =
    (Brk Continue,
     mkState (world (Mock.one MessageDelayResp [])) (heap (Mock.one MessageDelayResp []))
       (queue (Mock.one MessageDelayResp []))
       (trace (Mock.one MessageDelayResp []) ++
        [EvLog DebugLevel "Processing client: %s"; EvLog ErrorLevel format])).
Proof.
  apply (build_failure_sends_nothing (Mock.platform Mock.marshalFailure) 16
           (Mock.worker HWTIMESTAMP) 10 11 1%nat (Mock.client MessageDelayResp)
           (Mock.one MessageDelayResp [])
           (DelayRespPacket (delayRespP (Mock.client MessageDelayResp))) "marshal").
  - vm_compute. reflexivity.
  - reflexivity.
  - reflexivity.
Defined.


Lemma no_send_retried_witness :
  @nil Event = [] /\
  fst (iteration (Mock.platform Mock.eventSendFails) 16 (Mock.worker HWTIMESTAMP)
         10 11 1%nat (Mock.one MessageSync [])) <> Val tt.
Proof.
  apply (proj2 (no_send_retried (Mock.platform Mock.eventSendFails) 16
                  (Mock.worker HWTIMESTAMP) 10 11 1%nat (Mock.one MessageSync []))
           [] [] (EvSendto 10 [Byte.x00] (eclisa (Mock.client MessageSync)) (Some "sendto"))).
  - vm_compute. reflexivity.
  - reflexivity.
Defined.


Lemma loop_returns_only_on_delay_resp_failure_witness :
  exists pre buf to e,
    events (loop (Mock.platform Mock.generalSendFails) 16 (Mock.worker HWTIMESTAMP) 10 11)
      (Mock.one MessageDelayResp [1%nat; 1%nat]) =
    pre ++ [EvSendto 11 buf to (Some e);
            EvLog ErrorLevel "Failed to send the delay response: %v"].
Proof.
  apply (loop_returns_only_on_delay_resp_failure (Mock.platform Mock.generalSendFails) 16
           (Mock.worker HWTIMESTAMP) 10 11 (Mock.one MessageDelayResp [1%nat; 1%nat])).
  vm_compute. reflexivity.
Defined.

Lemma nil_job_panics_witness :
  loop (Mock.platform Mock.happy) 16 (Mock.worker HWTIMESTAMP) 10 11
    (Mock.one MessageSync [2%nat; 1%nat]) =
  (Brk Panic,
   mkState (world (Mock.one MessageSync [2%nat; 1%nat]))
     (heap (Mock.one MessageSync [2%nat; 1%nat])) [1%nat]
     (trace (Mock.one MessageSync [2%nat; 1%nat]))).
Proof.
  apply (nil_job_panics (Mock.platform Mock.happy) 16 (Mock.worker HWTIMESTAMP) 10 11
           2%nat [1%nat] (Mock.one MessageSync [2%nat; 1%nat])).
  - reflexivity.
  - vm_compute. reflexivity.
Defined.

Lemma Start_runs_loop_on_its_sockets_witness :
  exists (econn gconn : UDPConn) (eFd gFd : Fd) (w : Mock.World),
    let st0 := mkState w (heap (Mock.one MessageSync [1%nat]))
                 (queue (Mock.one MessageSync [1%nat]))
                 (trace (Mock.one MessageSync [1%nat]) ++
                  setupCalls (Mock.worker SWTIMESTAMP) econn gconn eFd gFd) in
    (cfgTimestampType (config (Mock.worker SWTIMESTAMP)) = HWTIMESTAMP \/
     cfgTimestampType (config (Mock.worker SWTIMESTAMP)) = SWTIMESTAMP) /\
    events (Start (Mock.platform Mock.happy) 16 (Mock.worker SWTIMESTAMP))
      (Mock.one MessageSync [1%nat]) =
      (setupCalls (Mock.worker SWTIMESTAMP) econn gconn eFd gFd ++
       events (loop (Mock.platform Mock.happy) 16 (Mock.worker SWTIMESTAMP) eFd gFd) st0)
      ++ [EvClose gconn; EvClose econn] /\
    fst (Start (Mock.platform Mock.happy) 16 (Mock.worker SWTIMESTAMP)
           (Mock.one MessageSync [1%nat])) =
      fst (loop (Mock.platform Mock.happy) 16 (Mock.worker SWTIMESTAMP) eFd gFd st0) /\
    heap (snd (Start (Mock.platform Mock.happy) 16 (Mock.worker SWTIMESTAMP)
                 (Mock.one MessageSync [1%nat]))) =
      heap (snd (loop (Mock.platform Mock.happy) 16 (Mock.worker SWTIMESTAMP) eFd gFd st0)) /\
    queue (snd (Start (Mock.platform Mock.happy) 16 (Mock.worker SWTIMESTAMP)
                  (Mock.one MessageSync [1%nat]))) =
      queue (snd (loop (Mock.platform Mock.happy) 16 (Mock.worker SWTIMESTAMP) eFd gFd st0)).
Proof.
  apply (Start_runs_loop_on_its_sockets (Mock.platform Mock.happy) 16
           (Mock.worker SWTIMESTAMP) (Mock.one MessageSync [1%nat])).
  vm_compute. discriminate.
Defined.

Lemma empty_queue_run_witness :
  fst (Start (Mock.platform Mock.happy) 16 (Mock.worker HWTIMESTAMP)
         (Mock.one MessageSync [])) = Val tt /\
  heap (snd (Start (Mock.platform Mock.happy) 16 (Mock.worker HWTIMESTAMP)
               (Mock.one MessageSync []))) = heap (Mock.one MessageSync []) /\
  exists (econn gconn : UDPConn) (eFd gFd : Fd),
    events (Start (Mock.platform Mock.happy) 16 (Mock.worker HWTIMESTAMP))
      (Mock.one MessageSync []) =
    setupCalls (Mock.worker HWTIMESTAMP) econn gconn eFd gFd ++
    [EvClose gconn; EvClose econn].
Proof.
  apply (empty_queue_run (Mock.platform Mock.happy) 16 (Mock.worker HWTIMESTAMP)
           (Mock.one MessageSync [])).
  - reflexivity.
  - vm_compute. discriminate.
Defined.

Lemma exit_iff_fatal_log_witness :
  exists pre format,
    events (Start (Mock.platform Mock.enableFailure) 16 (Mock.worker SWTIMESTAMP))
      (Mock.one MessageSync [1%nat]) = pre ++ [EvLog FatalLevel format] /\
    existsb isFatalLog pre = false.
Proof.
  apply (proj2 (exit_iff_fatal_log (Mock.platform Mock.enableFailure) 16
                  (Mock.worker SWTIMESTAMP) (Mock.one MessageSync [1%nat]))).
  vm_compute. reflexivity.
Defined.
